(** * todo-backend-golang: the in-memory item store and the resource dispatcher

    A shallow embedding of [main.go]: the [Todo] record, the
    [MockTodoService] store with its five operations, and [todoHandler],
    the function that maps an HTTP method and path onto store calls.

    Conventions of the embedding.
    - Go's [int] is the 64-bit two's complement integer; it is a [Z] here
      and the one arithmetic operation of the program, [t.nextId++], wraps.
    - An [error] is [option string]: [None] is [nil], [Some m] is an error
      whose [Error()] text is [m].
    - The store keeps [[]*Todo].  The slice is a [list Todo]; a pointer to
      a stored element is its index in the slice.  [Save] receives a
      pointer, so it also returns the caller's struct as the call left it.
    - The mutex is elided: every operation is modelled as one atomic step. *)

From Stdlib Require Import ZArith String Ascii Lia DecimalString DecimalPos.
From stdpp Require Import base option list strings gmap.

Local Open Scope Z_scope.

(** ** Go's [int] *)

Module GoInt.

Definition intSize : Z := 64.
Definition maxInt : Z := 2 ^ (intSize - 1) - 1.
Definition minInt : Z := - 2 ^ (intSize - 1).

(** Reduction of a mathematical integer to the representable range. *)
Definition wrap (z : Z) : Z :=
  (z - minInt) mod 2 ^ intSize + minInt.

(** [x++] *)
Definition incr (x : Z) : Z := wrap (x + 1).

Definition inRange (z : Z) : bool := (minInt <=? z) && (z <=? maxInt).

End GoInt.

(** ** The data model *)

Record Todo : Type := mkTodo {
  Id : Z;
  Title : string;
  Completed : bool;
  Order : Z;
  Url : string
}.

Definition error : Type := option string.

Record MockTodoService : Type := mkSvc {
  nextId : Z;
  Todos : list Todo
}.

Definition withId (id : Z) (t : Todo) : Todo :=
  mkTodo id (Title t) (Completed t) (Order t) (Url t).

Definition withUrl (u : string) (t : Todo) : Todo :=
  mkTodo (Id t) (Title t) (Completed t) (Order t) u.

(** The ids of a slice of items, in slice order. *)
Definition ids (l : list Todo) : list Z := Id <$> l.

(** ** The store *)

Definition NewMockTodoService : MockTodoService :=
  {| nextId := 1; Todos := [] |}.

(** The loop [for i, value := range t.Todos { if value.Id == id ...] that
    [Get], [Save] and [Delete] share: the first index holding [id]. *)
Fixpoint indexOf (id : Z) (l : list Todo) : option nat :=
  match l with
  | [] => None
  | value :: rest =>
      if Id value =? id then Some 0%nat else S <$> indexOf id rest
  end.

Definition GetAll (t : MockTodoService) : list Todo * error :=
  (Todos t, None).

Definition Get (t : MockTodoService) (id : Z) : option Todo * error :=
  match indexOf id (Todos t) with
  | Some i => (Todos t !! i, None)
  | None => (None, None)
  end.

(** [Save t todo]: the error, the caller's struct after the call, and the
    store after the call. *)
Definition Save (t : MockTodoService) (todo : Todo)
  : error * Todo * MockTodoService :=
  if Id todo =? 0 then
    let todo' := withId (nextId t) todo in
    (None, todo',
     {| nextId := GoInt.incr (nextId t); Todos := Todos t ++ [todo'] |})
  else
    match indexOf (Id todo) (Todos t) with
    | Some i =>
        (None, todo, {| nextId := nextId t; Todos := <[i := todo]> (Todos t) |})
    | None => (Some "Not Found"%string, todo, t)
    end.

Definition DeleteAll (t : MockTodoService) : error * MockTodoService :=
  (None, {| nextId := nextId t; Todos := [] |}).

Definition Delete (t : MockTodoService) (id : Z) : error * MockTodoService :=
  match indexOf id (Todos t) with
  | Some i =>
      (None,
       {| nextId := nextId t;
          Todos := take i (Todos t) ++ drop (S i) (Todos t) |})
  | None => (None, t)
  end.

(** The slot of the slice in which a successful [Save] left the caller's
    pointer: later writes through that pointer land there. *)
Definition savedAt (t : MockTodoService) (todo : Todo) : option nat :=
  if Id todo =? 0 then Some (length (Todos t))
  else indexOf (Id todo) (Todos t).

(** ** Runs of the store *)

Inductive Op : Type :=
| OpSave (todo : Todo)
| OpDelete (id : Z)
| OpDeleteAll.

Definition step (t : MockTodoService) (op : Op) : MockTodoService :=
  match op with
  | OpSave todo => (Save t todo).2
  | OpDelete id => (Delete t id).2
  | OpDeleteAll => (DeleteAll t).2
  end.

(** The id that an operation makes the store hand out, if any. *)
Definition issue (t : MockTodoService) (op : Op) : list Z :=
  match op with
  | OpSave todo => if Id todo =? 0 then [nextId t] else []
  | _ => []
  end.

(** A store together with the ids it has handed out so far, oldest first. *)
Record Traced : Type := mkTraced {
  svc : MockTodoService;
  issued : list Z
}.

Definition tstep (x : Traced) (op : Op) : Traced :=
  {| svc := step (svc x) op; issued := issued x ++ issue (svc x) op |}.

Definition trun (ops : list Op) : Traced :=
  fold_left tstep ops {| svc := NewMockTodoService; issued := [] |}.

Definition run (ops : list Op) : MockTodoService :=
  fold_left step ops NewMockTodoService.

Definition isCreate (op : Op) : bool :=
  match op with
  | OpSave todo => Id todo =? 0
  | _ => false
  end.

(** How many creates a run performs. *)
Definition creates (ops : list Op) : nat :=
  length (filter (fun op => isCreate op = true) ops).

(** ** Library functions the dispatcher calls

    [strings.Split], [strings.ToLower], [strconv.Atoi], [strconv.Itoa],
    [http.Error] and [http.NotFound] belong to Go's standard library; they
    are written out here as that library documents them. *)

Local Open Scope string_scope.

Module strings.

(** [strings.Split(s, sep)] for a separator of one byte. *)
Fixpoint Split (s : string) (sep : ascii) : list string :=
  match s with
  | EmptyString => [EmptyString]
  | String c rest =>
      if Ascii.eqb c sep then EmptyString :: Split rest sep
      else
        match Split rest sep with
        | part :: parts => String c part :: parts
        | [] => [String c EmptyString]
        end
  end.

Definition lowerAscii (c : ascii) : ascii :=
  let n := nat_of_ascii c in
  if (65 <=? n)%nat && (n <=? 90)%nat then ascii_of_nat (n + 32) else c.

(** [strings.ToLower], on the ASCII letters. *)
Fixpoint ToLower (s : string) : string :=
  match s with
  | EmptyString => EmptyString
  | String c rest => String (lowerAscii c) (ToLower rest)
  end.

End strings.

Module strconv.

Definition digit (c : ascii) : option Z :=
  let n := nat_of_ascii c in
  if (48 <=? n)%nat && (n <=? 57)%nat then Some (Z.of_nat n - 48) else None.

Fixpoint digits (acc : Z) (cs : list ascii) : option Z :=
  match cs with
  | [] => Some acc
  | c :: rest =>
      match digit c with
      | Some d => digits (acc * 10 + d) rest
      | None => None
      end
  end.

(** [strconv.Atoi]: an optional sign, then at least one decimal digit,
    and a value that fits [int]; [None] is a non-nil error. *)
Definition Atoi (s : string) : option Z :=
  let cs := list_ascii_of_string s in
  let '(neg, ds) :=
    match cs with
    | "-"%char :: rest => (true, rest)
    | "+"%char :: rest => (false, rest)
    | _ => (false, cs)
    end in
  match ds with
  | [] => None
  | _ =>
      match digits 0 ds with
      | Some v =>
          let n := if neg then - v else v in
          if GoInt.inRange n then Some n else None
      | None => None
      end
  end.

(** [strconv.Itoa] *)
Definition Itoa (z : Z) : string := NilZero.string_of_int (Z.to_int z).

End strconv.

Module http.

Definition StatusOK : Z := 200.
Definition StatusCreated : Z := 201.
Definition StatusNoContent : Z := 204.
Definition StatusBadRequest : Z := 400.
Definition StatusNotFound : Z := 404.
Definition StatusMethodNotAllowed : Z := 405.
Definition StatusUnprocessable : Z := 422.
Definition StatusInternalServerError : Z := 500.

(** What a handler wrote to the [ResponseWriter] after the headers. *)
Inductive Content : Type :=
| Empty
| Text (s : string)
| JsonTodo (todo : Todo)
| JsonTodos (todos : list Todo).

Record Response : Type := mkResponse {
  Status : Z;
  Body : Content
}.

Definition newline : string := String (ascii_of_nat 10) EmptyString.

(** [http.Error(w, msg, code)]: the status, then the message and a
    newline as plain text. *)
Definition Error (msg : string) (code : Z) : Response :=
  {| Status := code; Body := Text (String.append msg newline) |}.

(** [http.NotFound(w, r)] *)
Definition NotFound : Response := Error "404 page not found" StatusNotFound.

(** A body written with no [WriteHeader] before it goes out under 200. *)
Definition Written (c : Content) : Response :=
  {| Status := StatusOK; Body := c |}.

End http.

(** [encoding/json] is a given codec.  A request body is represented by
    what the decoder makes of it: a decode error, or the object's members
    that the [Todo] struct tags name ([Id] is tagged ["-"] and is never
    read from the wire). *)
Module json.

Record Object : Type := mkObject {
  title : option string;
  completed : option bool;
  order : option Z;
  url : option string
}.

Inductive Input : Type :=
| Malformed (msg : string)
| WellFormed (o : Object).

(** [json.NewDecoder(body).Decode(&todo)]: members present in the body
    overwrite the struct's fields, the others are left as they are. *)
Definition Decode (b : Input) (todo : Todo) : error * Todo :=
  match b with
  | Malformed msg => (Some msg, todo)
  | WellFormed o =>
      (None,
       {| Id := Id todo;
          Title := default (Title todo) (title o);
          Completed := default (Completed todo) (completed o);
          Order := default (Order todo) (order o);
          Url := default (Url todo) (url o) |})
  end.

End json.

(** ** The dispatcher *)

Record Request : Type := mkRequest {
  Method : string;
  Path : string;
  Host : string;
  TLS : bool;
  Payload : json.Input
}.

(** [var todo Todo] *)
Definition zeroTodo : Todo :=
  {| Id := 0; Title := ""; Completed := false; Order := 0; Url := "" |}.

Definition baseUrl (r : Request) : string :=
  String.append (if TLS r then "https" else "http")
    (String.append "://" (String.append (Host r) "/todos/")).

Definition addUrl (r : Request) (todo : Todo) : Todo :=
  withUrl (String.append (baseUrl r) (strconv.Itoa (Id todo))) todo.

Definition addUrlToTodos (r : Request) (todos : list Todo) : list Todo :=
  addUrl r <$> todos.

(** A write through a pointer that the slice holds in [slot]. *)
Definition storeAt (slot : option nat) (todo : Todo) (t : MockTodoService)
  : MockTodoService :=
  match slot with
  | Some i => {| nextId := nextId t; Todos := <[i := todo]> (Todos t) |}
  | None => t
  end.

(** [parts[2]] when the path has more than two parts, [""] otherwise. *)
Definition pathKey (path : string) : string :=
  let parts := strings.Split path "/" in
  if (2 <? length parts)%nat then default "" (parts !! 2%nat) else "".

Definition handleGet (t : MockTodoService) (r : Request) (key : string)
  : http.Response * MockTodoService :=
  if (String.length key =? 0)%nat then
    match GetAll t with
    | (_, Some err) => (http.Error err http.StatusInternalServerError, t)
    | (todos, None) =>
        let todos' := addUrlToTodos r todos in
        (http.Written (http.JsonTodos todos'),
         {| nextId := nextId t; Todos := todos' |})
    end
  else
    match strconv.Atoi key with
    | None => (http.Error "Invalid Id" http.StatusBadRequest, t)
    | Some id =>
        match Get t id with
        | (_, Some err) => (http.Error err http.StatusInternalServerError, t)
        | (None, None) => (http.NotFound, t)
        | (Some todo, None) =>
            let todo' := addUrl r todo in
            (http.Written (http.JsonTodo todo'),
             storeAt (indexOf id (Todos t)) todo' t)
        end
    end.

Definition handlePost (t : MockTodoService) (r : Request) (key : string)
  : http.Response * MockTodoService :=
  if (0 <? String.length key)%nat then
    (http.Error "Method not allowed" http.StatusMethodNotAllowed, t)
  else
    match json.Decode (Payload r) zeroTodo with
    | (Some err, _) => (http.Error err http.StatusUnprocessable, t)
    | (None, todo) =>
        match Save t todo with
        | (Some err, _, t') =>
            (http.Error err http.StatusInternalServerError, t')
        | (None, todo', t') =>
            let todo'' := addUrl r todo' in
            ({| http.Status := http.StatusCreated;
                http.Body := http.JsonTodo todo'' |},
             storeAt (savedAt t todo) todo'' t')
        end
    end.

Definition handlePatch (t : MockTodoService) (r : Request) (key : string)
  : http.Response * MockTodoService :=
  match strconv.Atoi key with
  | None => (http.Error "Invalid Id" http.StatusBadRequest, t)
  | Some id =>
      match json.Decode (Payload r) zeroTodo with
      | (Some err, _) => (http.Error err http.StatusUnprocessable, t)
      | (None, decoded) =>
          let todo := withId id decoded in
          match Save t todo with
          | (Some err, _, t') =>
              if String.eqb (strings.ToLower err) "not found"
              then (http.NotFound, t')
              else (http.Error err http.StatusInternalServerError, t')
          | (None, todo', t') =>
              let todo'' := addUrl r todo' in
              (http.Written (http.JsonTodo todo''),
               storeAt (savedAt t todo) todo'' t')
          end
      end
  end.

Definition handleDelete (t : MockTodoService) (r : Request) (key : string)
  : http.Response * MockTodoService :=
  let noContent :=
    {| http.Status := http.StatusNoContent; http.Body := http.Empty |} in
  if (String.length key =? 0)%nat then
    (noContent, (DeleteAll t).2)
  else
    match strconv.Atoi key with
    | None => (http.Error "Invalid Id" http.StatusBadRequest, t)
    | Some id =>
        match Delete t id with
        | (Some err, t') =>
            (http.Error err http.StatusInternalServerError, t')
        | (None, t') => (noContent, t')
        end
    end.

(** [todoHandler]: the response and the store after the request. *)
Definition todoHandler (t : MockTodoService) (r : Request)
  : http.Response * MockTodoService :=
  let key := pathKey (Path r) in
  if String.eqb (Method r) "GET" then handleGet t r key
  else if String.eqb (Method r) "POST" then handlePost t r key
  else if String.eqb (Method r) "PATCH" then handlePatch t r key
  else if String.eqb (Method r) "DELETE" then handleDelete t r key
  else (http.Error "Method Not Allowed" http.StatusMethodNotAllowed, t).

Local Open Scope list_scope.

(** ** Sample stores, runs and requests *)

Definition sampleTodo (id : Z) (title : string) : Todo :=
  {| Id := id; Title := title; Completed := false; Order := 0; Url := "" |}.

Definition sampleOps : list Op :=
  [OpSave (sampleTodo 0 "a"); OpSave (sampleTodo 0 "b"); OpDelete 1;
   OpSave (sampleTodo 2 "b'"); OpDeleteAll; OpSave (sampleTodo 0 "c")].

Definition clearOps : list Op :=
  [OpSave (sampleTodo 0 "a"); OpSave (sampleTodo 0 "b")] ++ OpDeleteAll :: [].

Definition oneItem : MockTodoService :=
  run [OpSave (sampleTodo 0 "a")].

Definition patchOf (path : string) (o : json.Object) : Request :=
  {| Method := "PATCH"; Path := path; Host := "example.com"; TLS := false;
     Payload := json.WellFormed o |}.

Definition emptyObject : json.Object :=
  {| json.title := None; json.completed := None; json.order := None;
     json.url := None |}.

Definition deleteOf (path : string) : Request :=
  {| Method := "DELETE"; Path := path; Host := "example.com"; TLS := false;
     Payload := json.Malformed "EOF" |}.

(** The store after a POST of title "a" on host example.com. *)
Definition storedItem : Todo :=
  {| Id := 1; Title := "a"; Completed := false; Order := 0;
     Url := "http://example.com/todos/1" |}.

Definition storedOnce : MockTodoService :=
  {| nextId := 2; Todos := [storedItem] |}.

Definition sameButUrl : Todo :=
  {| Id := 1; Title := "a"; Completed := false; Order := 0;
     Url := "http://localhost:8080/todos/1" |}.

Definition getOf (path : string) : Request :=
  {| Method := "GET"; Path := path; Host := "example.com"; TLS := false;
     Payload := json.Malformed "EOF" |}.

Definition completedOnly : json.Object :=
  {| json.title := None; json.completed := Some true; json.order := None;
     json.url := None |}.

Definition titledItem : MockTodoService :=
  {| nextId := 2;
     Todos := [{| Id := 1; Title := "buy milk"; Completed := false;
                  Order := 5; Url := "http://example.com/todos/1" |}] |}.

(** ** The middleware

    [optionsOk], [contentTypeJsonHandler], [loggingHandler] and
    [commonHandlers] wrap a handler.  What a request leaves behind is the
    header map of its [ResponseWriter], what was written after it, and the
    store.  A handler that returns without writing anything is [None]:
    [net/http] then sends status 200 and an empty body. *)

Module textproto.

(** The bytes of an HTTP token. *)
Definition validHeaderFieldByte (c : ascii) : bool :=
  let n := nat_of_ascii c in
  ((48 <=? n) && (n <=? 57) || (65 <=? n) && (n <=? 90) ||
   (97 <=? n) && (n <=? 122) ||
   bool_decide (n ∈ [33; 35; 36; 37; 38; 39; 42; 43; 45; 46; 94; 95; 96;
                     124; 126]))%nat.

Definition upperAscii (c : ascii) : ascii :=
  let n := nat_of_ascii c in
  if (97 <=? n)%nat && (n <=? 122)%nat then ascii_of_nat (n - 32) else c.

Fixpoint canonical (upper : bool) (s : string) : string :=
  match s with
  | EmptyString => EmptyString
  | String c rest =>
      let c' := if upper then upperAscii c else strings.lowerAscii c in
      String c' (canonical (Ascii.eqb c' "-") rest)
  end.

(** [textproto.CanonicalMIMEHeaderKey]: the first letter and every letter
    after a hyphen in upper case, the others in lower case; a key that is
    not a token is left as it is. *)
Definition CanonicalMIMEHeaderKey (s : string) : string :=
  if forallb validHeaderFieldByte (list_ascii_of_string s)
  then canonical true s else s.

End textproto.

(** [http.Header], with the one value per key that [Set] leaves. *)
Abbreviation Header := (gmap string string).

Definition hSet (h : Header) (key value : string) : Header :=
  <[textproto.CanonicalMIMEHeaderKey key := value]> h.

Definition hDel (h : Header) (key : string) : Header :=
  delete (textproto.CanonicalMIMEHeaderKey key) h.

Definition hGet (h : Header) (key : string) : option string :=
  h !! textproto.CanonicalMIMEHeaderKey key.

(** What [http.Error] does to the header before it writes: it deletes
    Content-Length and sets the two headers of a plain-text reply. *)
Definition errorHeader (h : Header) : Header :=
  hSet (hSet (hDel h "Content-Length")
          "Content-Type" "text/plain; charset=utf-8")
    "X-Content-Type-Options" "nosniff".

Definition Handler : Type :=
  Header -> MockTodoService -> Request ->
  Header * option http.Response * MockTodoService.

(** [todoHandler] as an [http.HandlerFunc]: it touches the header only
    through [http.Error] and [http.NotFound], which are also its only
    writes of a text body. *)
Definition serveTodo : Handler :=
  fun h t r =>
    let '(resp, t') := todoHandler t r in
    (match http.Body resp with
     | http.Text _ => errorHeader h
     | _ => h
     end, Some resp, t').

Definition optionsOk (next : Handler) : Handler :=
  fun h t r =>
    let h1 := hSet h "access-control-allow-origin" "*" in
    let h2 := hSet h1 "access-control-allow-methods"
                "GET, POST, PATCH, DELETE" in
    let h3 := hSet h2 "access-control-allow-headers"
                "accept, content-type" in
    if String.eqb (Method r) "OPTIONS" then (h3, None, t)
    else next h3 t r.

Definition contentTypeJsonHandler (next : Handler) : Handler :=
  fun h t r =>
    next (hSet h "Content-Type" "application/json; charset=UTF-8") t r.

(** [loggingHandler] reads the clock around the call of [next] and prints
    a log line; header, reply and store are those of [next]. *)
Definition loggingHandler (next : Handler) : Handler :=
  fun h t r => next h t r.

Definition commonHandlers (next : Handler) : Handler :=
  loggingHandler (contentTypeJsonHandler (optionsOk next)).

(** What goes out for a reply. *)
Definition sent (w : option http.Response) : http.Response :=
  default (http.Written http.Empty) w.

(** One request against the handler that [main] mounts, with the empty
    header map of a new [ResponseWriter]. *)
Definition handle (t : MockTodoService) (r : Request)
  : Header * option http.Response * MockTodoService :=
  commonHandlers serveTodo ∅ t r.

(** The store after a sequence of requests, starting from [t]. *)
Definition serveFrom (t : MockTodoService) (rs : list Request)
  : MockTodoService :=
  fold_left (fun t r => (handle t r).2) rs t.

Definition serveAll (rs : list Request) : MockTodoService :=
  serveFrom NewMockTodoService rs.

(** ** The store of an earlier revision

    One of the earlier revisions of [main.go] kept in the repository has
    the same [MockTodoService], [NewMockTodoService], [GetAll],
    [DeleteAll] and [Delete], but a [Save] that inserts what it does not
    find. *)

Module Earlier.

Definition Save (t : MockTodoService) (todo : Todo)
  : error * Todo * MockTodoService :=
  let '(todo', next) :=
    if (Id todo =? 0)%Z then (withId (nextId t) todo, GoInt.incr (nextId t))
    else (todo, nextId t) in
  match indexOf (Id todo') (Todos t) with
  | Some i =>
      (None, todo', {| nextId := next; Todos := <[i := todo']> (Todos t) |})
  | None =>
      (None, todo', {| nextId := next; Todos := Todos t ++ [todo'] |})
  end.

Definition step (t : MockTodoService) (op : Op) : MockTodoService :=
  match op with
  | OpSave todo => (Save t todo).2
  | OpDelete id => (Delete t id).2
  | OpDeleteAll => (DeleteAll t).2
  end.

Definition run (ops : list Op) : MockTodoService :=
  fold_left step ops NewMockTodoService.

End Earlier.

(** ** Auxiliary notions for the properties *)

(** The slice without the first item that carries [id]. *)
Fixpoint removeFirst (id : Z) (l : list Todo) : list Todo :=
  match l with
  | [] => []
  | value :: rest =>
      if (Id value =? id)%Z then rest else value :: removeFirst id rest
  end.

(** The first item of the slice that carries [id]. *)
Fixpoint firstWith (id : Z) (l : list Todo) : option Todo :=
  match l with
  | [] => None
  | value :: rest => if (Id value =? id)%Z then Some value else firstWith id rest
  end.

(** A store whose ids are positive, below the counter and distinct. *)
Definition wellFormed (t : MockTodoService) : Prop :=
  1 <= nextId t <= GoInt.maxInt /\
  Forall (fun id => 1 <= id < nextId t) (ids (Todos t)) /\
  NoDup (ids (Todos t)).

Definition twoItems : MockTodoService :=
  run [OpSave (sampleTodo 0 "a"); OpSave (sampleTodo 0 "b")].

Definition postOf (o : json.Object) : Request :=
  {| Method := "POST"; Path := "/todos"; Host := "example.com"; TLS := false;
     Payload := json.WellFormed o |}.

Definition titleOnly (title : string) : json.Object :=
  {| json.title := Some title; json.completed := None; json.order := None;
     json.url := None |}.

Definition optionsOf (path : string) : Request :=
  {| Method := "OPTIONS"; Path := path; Host := "example.com"; TLS := false;
     Payload := json.Malformed "EOF" |}.

Definition postTo (path : string) (o : json.Object) : Request :=
  {| Method := "POST"; Path := path; Host := "example.com"; TLS := false;
     Payload := json.WellFormed o |}.

Definition badPatch : Request :=
  {| Method := "PATCH"; Path := "/todos/1"; Host := "example.com";
     TLS := false; Payload := json.Malformed "unexpected EOF" |}.

Definition putOf (path : string) : Request :=
  {| Method := "PUT"; Path := path; Host := "example.com"; TLS := false;
     Payload := json.WellFormed emptyObject |}.

Definition getAt (id : Z) : Request :=
  {| Method := "GET"; Path := String.append "/todos/" (strconv.Itoa id);
     Host := "example.com"; TLS := false; Payload := json.Malformed "EOF" |}.

Ltac canonical_keys :=
  repeat match goal with
  | |- context [textproto.CanonicalMIMEHeaderKey ?k] =>
      let v := eval vm_compute in (textproto.CanonicalMIMEHeaderKey k) in
      change (textproto.CanonicalMIMEHeaderKey k) with v
  end.

Ltac header_lookup :=
  unfold errorHeader, hGet, hSet, hDel; canonical_keys;
  repeat (rewrite lookup_insert_eq
          || (rewrite lookup_insert_ne by discriminate)
          || (rewrite lookup_delete_ne by discriminate));
  try reflexivity.

Definition sampleTraffic : list Request :=
  [postOf (titleOnly "a"); postOf (titleOnly "b"); deleteOf "/todos/1";
   patchOf "/todos/2" completedOnly; optionsOf "/todos"; getOf "/todos";
   patchOf "/todos/0" emptyObject].

(** The url of a stored item is the one some request computed for its id. *)
Definition urlFrom (rs : list Request) (x : Todo) : Prop :=
  exists r, r ∈ rs /\ Url x = String.append (baseUrl r) (strconv.Itoa (Id x)).

(** * Properties *)

(** ** Go's [int]: when [x++] is [x + 1] *)

Lemma incr_no_overflow (x : Z) :
  GoInt.minInt <= x < GoInt.maxInt -> GoInt.incr x = x + 1.
Proof.
  unfold GoInt.incr, GoInt.wrap, GoInt.minInt, GoInt.maxInt, GoInt.intSize.
  intros Hx. rewrite Z.mod_small; lia.
Qed.

Lemma incr_maxInt : GoInt.incr GoInt.maxInt = GoInt.minInt.
Proof. reflexivity. Qed.

(** ** The search loop *)

Lemma indexOf_Some (id : Z) (l : list Todo) (i : nat) :
  indexOf id l = Some i ->
  exists value, l !! i = Some value /\ Id value = id.
Proof.
  revert i. induction l as [|v l IH]; intros i; simpl; [discriminate|].
  destruct (Z.eqb_spec (Id v) id) as [E|E].
  - intros [= <-]. exists v. split; [reflexivity|exact E].
  - destruct (indexOf id l) as [j|] eqn:Hj; simpl; [|discriminate].
    intros [= <-]. simpl. apply IH. reflexivity.
Qed.

Lemma indexOf_first (id : Z) (l : list Todo) (i j : nat) (value : Todo) :
  indexOf id l = Some i -> (j < i)%nat -> l !! j = Some value -> Id value <> id.
Proof.
  revert i j. induction l as [|v l IH]; intros i j; simpl; [discriminate|].
  destruct (Z.eqb_spec (Id v) id) as [E|E].
  - intros [= <-] Hj. lia.
  - destruct (indexOf id l) as [k|] eqn:Hk; simpl; [|discriminate].
    intros [= <-] Hj. destruct j as [|j]; simpl.
    + intros [= <-]. exact E.
    + apply (IH k j); [reflexivity|lia].
Qed.

Lemma indexOf_None (id : Z) (l : list Todo) :
  indexOf id l = None <-> id ∉ ids l.
Proof.
  unfold ids. induction l as [|v l IH]; simpl.
  - split; [intros _; apply not_elem_of_nil|reflexivity].
  - rewrite not_elem_of_cons. destruct (Z.eqb_spec (Id v) id) as [E|E].
    + split; [discriminate|]. intros [H _]. congruence.
    + destruct (indexOf id l) as [k|]; simpl.
      * split; [discriminate|]. intros [_ H]. apply IH in H. discriminate.
      * split; [|reflexivity]. intros _. split; [congruence|].
        apply IH. reflexivity.
Qed.

Lemma indexOf_is_Some (id : Z) (l : list Todo) :
  id ∈ ids l -> is_Some (indexOf id l).
Proof.
  intros Hin. destruct (indexOf id l) as [i|] eqn:E; [eauto|].
  apply indexOf_None in E. contradiction.
Qed.

Lemma indexOf_lt (id : Z) (l : list Todo) (i : nat) :
  indexOf id l = Some i -> (i < length l)%nat.
Proof.
  intros H. apply indexOf_Some in H as (v & Hv & _).
  eapply lookup_lt_Some; eassumption.
Qed.

(** Overwriting the slot found for an id with an item of that id keeps the
    sequence of ids. *)
Lemma ids_insert_found (todo : Todo) (l : list Todo) (i : nat) :
  indexOf (Id todo) l = Some i -> ids (<[i := todo]> l) = ids l.
Proof.
  intros H. apply indexOf_Some in H as (v & Hv & Hid).
  unfold ids. rewrite list_fmap_insert. apply list_insert_id.
  rewrite list_lookup_fmap, Hv. simpl. congruence.
Qed.

Lemma ids_remove_sublist (l : list Todo) (i : nat) :
  ids (take i l ++ drop (S i) l) `sublist_of` ids l.
Proof.
  rewrite <- delete_take_drop. unfold ids.
  apply fmap_sublist, sublist_delete.
Qed.

(** ** One step of the store *)

Lemma Save_create (t : MockTodoService) (todo : Todo) :
  Id todo = 0 ->
  Save t todo =
    (None, withId (nextId t) todo,
     {| nextId := GoInt.incr (nextId t);
        Todos := Todos t ++ [withId (nextId t) todo] |}).
Proof. intros H. unfold Save. rewrite H. reflexivity. Qed.

Lemma Save_update (t : MockTodoService) (todo : Todo) (i : nat) :
  Id todo <> 0 -> indexOf (Id todo) (Todos t) = Some i ->
  Save t todo =
    (None, todo, {| nextId := nextId t; Todos := <[i := todo]> (Todos t) |}).
Proof.
  intros H Hi. unfold Save.
  destruct (Z.eqb_spec (Id todo) 0) as [E|_]; [contradiction|].
  rewrite Hi. reflexivity.
Qed.

Lemma Save_missing (t : MockTodoService) (todo : Todo) :
  Id todo <> 0 -> Id todo ∉ ids (Todos t) ->
  Save t todo = (Some "Not Found", todo, t).
Proof.
  intros H Hni. unfold Save.
  destruct (Z.eqb_spec (Id todo) 0) as [E|_]; [contradiction|].
  apply indexOf_None in Hni. rewrite Hni. reflexivity.
Qed.

(** What a step does to the sequence of ids in the slice. *)
Lemma step_ids (t : MockTodoService) (op : Op) :
  (isCreate op = true /\
   ids (Todos (step t op)) = ids (Todos t) ++ [nextId t]) \/
  (isCreate op = false /\
   ids (Todos (step t op)) `sublist_of` ids (Todos t)).
Proof.
  destruct op as [todo|id|]; simpl.
  - unfold Save. destruct (Z.eqb_spec (Id todo) 0) as [E|E].
    + left. split; [reflexivity|]. simpl. unfold ids.
      rewrite fmap_app. reflexivity.
    + right. split; [reflexivity|].
      destruct (indexOf (Id todo) (Todos t)) as [i|] eqn:Hi; simpl.
      * rewrite (ids_insert_found _ _ _ Hi). reflexivity.
      * reflexivity.
  - right. split; [reflexivity|]. unfold Delete.
    destruct (indexOf id (Todos t)) as [i|]; simpl.
    + apply ids_remove_sublist.
    + reflexivity.
  - right. split; [reflexivity|]. apply sublist_nil_l.
Qed.

Lemma step_nextId (t : MockTodoService) (op : Op) :
  nextId (step t op) =
    if isCreate op then GoInt.incr (nextId t) else nextId t.
Proof.
  destruct op as [todo|id|]; simpl; [| |reflexivity].
  - unfold Save. destruct (Id todo =? 0)%Z; [reflexivity|].
    destruct (indexOf (Id todo) (Todos t)); reflexivity.
  - unfold Delete. destruct (indexOf id (Todos t)); reflexivity.
Qed.

Lemma issue_spec (t : MockTodoService) (op : Op) :
  issue t op = if isCreate op then [nextId t] else [].
Proof. destruct op; reflexivity. Qed.

(** ** Runs *)

Lemma trun_snoc (ops : list Op) (op : Op) :
  trun (ops ++ [op]) = tstep (trun ops) op.
Proof. unfold trun. rewrite fold_left_app. reflexivity. Qed.

Lemma run_snoc (ops : list Op) (op : Op) :
  run (ops ++ [op]) = step (run ops) op.
Proof. unfold run. rewrite fold_left_app. reflexivity. Qed.

Lemma trun_svc (ops : list Op) : svc (trun ops) = run ops.
Proof.
  induction ops as [|op ops IH] using rev_ind; [reflexivity|].
  rewrite trun_snoc, run_snoc. simpl. rewrite IH. reflexivity.
Qed.

Lemma creates_snoc (ops : list Op) (op : Op) :
  creates (ops ++ [op]) =
    (creates ops + if isCreate op then 1 else 0)%nat.
Proof.
  unfold creates. rewrite filter_app, length_app. f_equal.
  rewrite filter_cons. destruct (isCreate op); simpl.
  - destruct (decide (true = true)); [reflexivity|congruence].
  - destruct (decide (false = true)); [discriminate|reflexivity].
Qed.

Lemma issued_length (ops : list Op) :
  length (issued (trun ops)) = creates ops.
Proof.
  induction ops as [|op ops IH] using rev_ind; [reflexivity|].
  rewrite trun_snoc, creates_snoc. simpl.
  rewrite length_app, IH, issue_spec.
  destruct (isCreate op); reflexivity.
Qed.

(** The ids in the slice are, in slice order, a subsequence of the ids
    handed out, in the order they were handed out. *)
Lemma trun_ids_sublist (ops : list Op) :
  ids (Todos (svc (trun ops))) `sublist_of` issued (trun ops).
Proof.
  induction ops as [|op ops IH] using rev_ind; [reflexivity|].
  rewrite trun_snoc. simpl. rewrite issue_spec.
  destruct (step_ids (svc (trun ops)) op) as [[Hc Hs]|[Hc Hs]]; rewrite Hc.
  - rewrite Hs. apply sublist_app; [exact IH|reflexivity].
  - rewrite app_nil_r. etransitivity; eassumption.
Qed.

(** While fewer than [maxInt] ids have been handed out, the counter has
    not wrapped: the ids handed out are 1, 2, ..., and the counter is the
    next one. *)
Lemma trun_counter (ops : list Op) :
  Z.of_nat (creates ops) < GoInt.maxInt ->
  issued (trun ops) = seqZ 1 (Z.of_nat (creates ops)) /\
  nextId (svc (trun ops)) = 1 + Z.of_nat (creates ops).
Proof.
  induction ops as [|op ops IH] using rev_ind; [intros _; split; reflexivity|].
  rewrite trun_snoc, creates_snoc. simpl. intros Hb.
  destruct IH as [Hh Hn]; [lia|].
  rewrite issue_spec, step_nextId, Hh, Hn.
  destruct (isCreate op).
  - rewrite Nat.add_1_r, seqZ_S. split; [reflexivity|].
    rewrite incr_no_overflow; [lia|].
    unfold GoInt.minInt, GoInt.maxInt, GoInt.intSize in *. lia.
  - rewrite Nat.add_0_r, app_nil_r. split; reflexivity.
Qed.

Lemma trun_issued_lt (ops : list Op) (id : Z) :
  Z.of_nat (creates ops) < GoInt.maxInt ->
  id ∈ issued (trun ops) -> 1 <= id < nextId (svc (trun ops)).
Proof.
  intros Hb Hin. destruct (trun_counter ops Hb) as [Hh Hn].
  rewrite Hh in Hin. apply elem_of_seqZ in Hin. lia.
Qed.

Lemma run_ids_NoDup (ops : list Op) :
  Z.of_nat (creates ops) < GoInt.maxInt -> NoDup (ids (Todos (run ops))).
Proof.
  intros Hb. rewrite <- trun_svc.
  apply (sublist_NoDup _ (issued (trun ops))); [|apply trun_ids_sublist].
  rewrite (proj1 (trun_counter ops Hb)). apply NoDup_seqZ.
Qed.

Lemma run_ids_positive (ops : list Op) (todo : Todo) :
  Z.of_nat (creates ops) < GoInt.maxInt ->
  todo ∈ Todos (run ops) -> 1 <= Id todo < nextId (run ops).
Proof.
  intros Hb Hin. rewrite <- trun_svc in *.
  apply trun_issued_lt; [exact Hb|].
  eapply elem_of_sublist; [|apply trun_ids_sublist].
  unfold ids. apply list_elem_of_fmap_2. exact Hin.
Qed.

(** ** The store's claims *)

(** C1: in every store state reached from the freshly constructed store by
    a sequence of Save, Delete and DeleteAll operations, every item has a
    non-zero id and no two items at different positions share an id.  The
    counter is a Go [int]: the run is one in which fewer than [maxInt] ids
    have been handed out, so that [nextId++] has not wrapped. *)
Theorem store_ids_nonzero_unique (ops : list Op) :
  Z.of_nat (creates ops) < GoInt.maxInt ->
  (forall todo, todo ∈ Todos (run ops) -> Id todo <> 0) /\
  (forall i j a b,
     Todos (run ops) !! i = Some a -> Todos (run ops) !! j = Some b ->
     Id a = Id b -> i = j).
Proof.
  intros Hb. split.
  - intros todo Hin. pose proof (run_ids_positive ops todo Hb Hin). lia.
  - intros i j a b Ha Hb' Hab.
    pose proof (run_ids_NoDup ops Hb) as Hnd.
    apply (proj1 (NoDup_alt _) Hnd i j (Id a)); unfold ids;
      rewrite list_lookup_fmap.
    + rewrite Ha. reflexivity.
    + rewrite Hb', Hab. reflexivity.
Qed.

Lemma store_ids_nonzero_unique_witness :
  Z.of_nat (creates sampleOps) < GoInt.maxInt /\
  ((forall todo, todo ∈ Todos (run sampleOps) -> Id todo <> 0) /\
   (forall i j a b,
      Todos (run sampleOps) !! i = Some a ->
      Todos (run sampleOps) !! j = Some b ->
      Id a = Id b -> i = j)).
Proof.
  split; [reflexivity|].
  apply (store_ids_nonzero_unique sampleOps). reflexivity.
Defined.

(** C2: in every store state, Save of an item whose id is zero succeeds,
    gives the item the current value of the counter, increments the
    counter (Go's [++]) and appends the item at the end of the slice; and
    in a run in which fewer than [maxInt] ids have been handed out, the
    id so assigned is strictly greater than every id handed out before,
    and the counter after the call is that id plus one unless the id is
    [maxInt]. *)
Theorem save_create_assigns_fresh_id :
  (forall t todo, Id todo = 0 ->
     Save t todo =
       (None, withId (nextId t) todo,
        {| nextId := GoInt.incr (nextId t);
           Todos := Todos t ++ [withId (nextId t) todo] |})) /\
  (forall ops todo, Id todo = 0 ->
     Z.of_nat (creates ops) < GoInt.maxInt ->
     let t := svc (trun ops) in
     Id (Save t todo).1.2 = nextId t /\
     (forall id, id ∈ issued (trun ops) -> id < Id (Save t todo).1.2) /\
     (nextId t < GoInt.maxInt -> nextId (Save t todo).2 = nextId t + 1)).
Proof.
  split; [exact Save_create|].
  intros ops todo H0 Hb t. rewrite (Save_create t todo H0). simpl.
  split; [reflexivity|]. split.
  - intros id Hin. apply (trun_issued_lt ops id Hb Hin).
  - intros Hlt. apply incr_no_overflow.
    destruct (trun_counter ops Hb) as [_ Hn]. fold t in Hn.
    unfold GoInt.minInt, GoInt.intSize. lia.
Qed.

Lemma save_create_assigns_fresh_id_witness :
  Id (sampleTodo 0 "d") = 0 /\
  Z.of_nat (creates sampleOps) < GoInt.maxInt /\
  Save (svc (trun sampleOps)) (sampleTodo 0 "d") =
    (None, sampleTodo 4 "d",
     {| nextId := 5; Todos := [sampleTodo 3 "c"; sampleTodo 4 "d"] |}) /\
  (forall id, id ∈ issued (trun sampleOps) -> id < 4).
Proof.
  split; [reflexivity|]. split; [reflexivity|]. split; [reflexivity|].
  intros id Hin.
  exact (proj1 (proj2 (proj2 save_create_assigns_fresh_id sampleOps
                         (sampleTodo 0 "d") eq_refl eq_refl)) id Hin).
Defined.

(** The shape of the slice after an update. *)
Lemma insert_found_frame (todo : Todo) (l : list Todo) (i : nat) :
  indexOf (Id todo) l = Some i ->
  length (<[i := todo]> l) = length l /\
  ids (<[i := todo]> l) = ids l /\
  <[i := todo]> l !! i = Some todo /\
  (forall j, j <> i -> <[i := todo]> l !! j = l !! j).
Proof.
  intros Hi. split; [apply length_insert|].
  split; [apply ids_insert_found; exact Hi|].
  split; [apply list_lookup_insert_eq; eapply indexOf_lt; exact Hi|].
  intros j Hj. apply list_lookup_insert_ne. congruence.
Qed.

(** C6: GetAll returns the slice as it is, and the slice is in insertion
    order: after any run the ids it lists are a subsequence of the ids
    handed out, in the order they were handed out; a create puts its item
    at the end, an update keeps the sequence of ids, and Delete leaves the
    remaining items in their relative order (the slice without one
    position, or the slice itself). *)
Theorem getall_insertion_order :
  (forall ops,
     ids (GetAll (svc (trun ops))).1 `sublist_of` issued (trun ops)) /\
  (forall t todo, Id todo = 0 ->
     (GetAll (Save t todo).2).1 = (GetAll t).1 ++ [withId (nextId t) todo]) /\
  (forall t todo, Id todo <> 0 ->
     ids (GetAll (Save t todo).2).1 = ids (GetAll t).1) /\
  (forall t id,
     (GetAll (Delete t id).2).1 `sublist_of` (GetAll t).1 /\
     ((GetAll (Delete t id).2).1 = (GetAll t).1 \/
      exists i, (GetAll (Delete t id).2).1 = delete i (GetAll t).1)).
Proof.
  split; [exact trun_ids_sublist|].
  split; [intros t todo H0; rewrite (Save_create t todo H0); reflexivity|].
  split.
  - intros t todo Hn. simpl.
    destruct (indexOf (Id todo) (Todos t)) as [i|] eqn:Hi.
    + rewrite (Save_update t todo i Hn Hi). simpl.
      apply ids_insert_found. exact Hi.
    + rewrite (Save_missing t todo Hn); [reflexivity|].
      apply indexOf_None. exact Hi.
  - intros t id. unfold Delete, GetAll. simpl.
    destruct (indexOf id (Todos t)) as [i|]; simpl.
    + rewrite <- delete_take_drop.
      split; [apply sublist_delete|]. right. exists i. reflexivity.
    + split; [reflexivity|]. left. reflexivity.
Qed.

Lemma getall_insertion_order_witness :
  ids (GetAll (svc (trun sampleOps))).1 = [3] /\
  issued (trun sampleOps) = [1; 2; 3] /\
  ids (GetAll (svc (trun sampleOps))).1 `sublist_of` issued (trun sampleOps) /\
  (GetAll (Save oneItem (sampleTodo 0 "b")).2).1 =
    (GetAll oneItem).1 ++ [sampleTodo 2 "b"] /\
  ids (GetAll (Save oneItem (sampleTodo 1 "a'")).2).1 = ids (GetAll oneItem).1 /\
  (GetAll (Delete oneItem 1).2).1 `sublist_of` (GetAll oneItem).1.
Proof.
  split; [reflexivity|]. split; [reflexivity|].
  split; [exact (proj1 getall_insertion_order sampleOps)|].
  split; [exact (proj1 (proj2 getall_insertion_order) oneItem
                   (sampleTodo 0 "b") eq_refl)|].
  split.
  - apply (proj1 (proj2 (proj2 getall_insertion_order)) oneItem
             (sampleTodo 1 "a'")).
    discriminate.
  - exact (proj1 (proj2 (proj2 (proj2 getall_insertion_order)) oneItem 1)).
Defined.

(** C7: DeleteAll succeeds in every store state, leaves the slice empty
    (GetAll then returns the empty sequence) and keeps the counter; and in
    a run that contains a DeleteAll and hands out fewer than [maxInt] ids,
    a create performed after it receives an id that no earlier create of
    the run received. *)
Theorem deleteall_keeps_counter :
  (forall t,
     DeleteAll t = (None, {| nextId := nextId t; Todos := [] |}) /\
     GetAll (DeleteAll t).2 = ([], None) /\
     nextId (DeleteAll t).2 = nextId t) /\
  (forall before after todo, Id todo = 0 ->
     Z.of_nat (creates (before ++ OpDeleteAll :: after)) < GoInt.maxInt ->
     (Save (svc (trun (before ++ OpDeleteAll :: after))) todo).1.1 = None /\
     (Id (Save (svc (trun (before ++ OpDeleteAll :: after))) todo).1.2
        ∉ issued (trun (before ++ OpDeleteAll :: after))) /\
     (forall old, old ∈ issued (trun (before ++ OpDeleteAll :: after)) ->
        old < Id (Save (svc (trun (before ++ OpDeleteAll :: after))) todo).1.2)).
Proof.
  split; [intros t; repeat split|].
  intros before after todo H0 Hb.
  set (ops := before ++ OpDeleteAll :: after) in *.
  rewrite (Save_create _ todo H0). simpl.
  split; [reflexivity|].
  assert (forall old, old ∈ issued (trun ops) -> old < nextId (svc (trun ops)))
    as Hlt by (intros old Hin; apply (trun_issued_lt ops old Hb Hin)).
  split; [|exact Hlt].
  intros Hin. apply Hlt in Hin. lia.
Qed.

Lemma deleteall_keeps_counter_witness :
  Id (sampleTodo 0 "c") = 0 /\
  Z.of_nat (creates clearOps) < GoInt.maxInt /\
  Todos (svc (trun clearOps)) = [] /\
  issued (trun clearOps) = [1; 2] /\
  Save (svc (trun clearOps)) (sampleTodo 0 "c") =
    (None, sampleTodo 3 "c", {| nextId := 4; Todos := [sampleTodo 3 "c"] |}) /\
  (Id (Save (svc (trun clearOps)) (sampleTodo 0 "c")).1.2
     ∉ issued (trun clearOps)).
Proof.
  repeat (split; [reflexivity|]).
  exact (proj1 (proj2 (proj2 deleteall_keeps_counter
                         [OpSave (sampleTodo 0 "a"); OpSave (sampleTodo 0 "b")]
                         [] (sampleTodo 0 "c") eq_refl eq_refl))).
Defined.

(** ** The dispatcher: reading the path and the method *)

Lemma Atoi_Some_nonempty (key : string) (id : Z) :
  strconv.Atoi key = Some id -> (String.length key =? 0)%nat = false.
Proof. destruct key; [discriminate|reflexivity]. Qed.

Lemma handler_GET (t : MockTodoService) (r : Request) :
  Method r = "GET" -> todoHandler t r = handleGet t r (pathKey (Path r)).
Proof. intros H. unfold todoHandler. rewrite H. reflexivity. Qed.

Lemma handler_PATCH (t : MockTodoService) (r : Request) :
  Method r = "PATCH" -> todoHandler t r = handlePatch t r (pathKey (Path r)).
Proof. intros H. unfold todoHandler. rewrite H. reflexivity. Qed.

Lemma handler_DELETE (t : MockTodoService) (r : Request) :
  Method r = "DELETE" -> todoHandler t r = handleDelete t r (pathKey (Path r)).
Proof. intros H. unfold todoHandler. rewrite H. reflexivity. Qed.

Lemma Delete_no_error (t : MockTodoService) (id : Z) : (Delete t id).1 = None.
Proof. unfold Delete. destruct (indexOf id (Todos t)); reflexivity. Qed.

Lemma remove_found_absent (id : Z) (l : list Todo) (i : nat) :
  NoDup (ids l) -> indexOf id l = Some i ->
  id ∉ ids (take i l ++ drop (S i) l).
Proof.
  intros Hnd Hi. apply indexOf_Some in Hi as (v & Hv & Hid).
  assert (ids l !! i = Some id) as Hl
    by (unfold ids; rewrite list_lookup_fmap, Hv; simpl; congruence).
  rewrite <- (take_drop_middle _ _ _ Hl) in Hnd.
  apply NoDup_app in Hnd as (_ & Hdisj & Hrest).
  apply NoDup_cons_1_1 in Hrest.
  unfold ids in *. rewrite fmap_app, fmap_take, fmap_drop.
  apply not_elem_of_app. split; [|exact Hrest].
  intros Hin. apply (Hdisj _ Hin). left.
Qed.

(** C3: in every store state, Save of an item whose id is non-zero and is
    the id of no item of the slice fails with the error "Not Found" and
    leaves the store (slice and counter) as it was; and the dispatcher
    answers a PATCH whose path id is such an id, and whose body decodes,
    with 404 and the store unchanged: nothing is inserted. *)
Theorem save_unknown_id_not_found :
  (forall t todo, Id todo <> 0 -> Id todo ∉ ids (Todos t) ->
     Save t todo = (Some "Not Found", todo, t)) /\
  (forall t r id o,
     Method r = "PATCH" -> strconv.Atoi (pathKey (Path r)) = Some id ->
     id <> 0 -> id ∉ ids (Todos t) -> Payload r = json.WellFormed o ->
     http.Status (todoHandler t r).1 = http.StatusNotFound /\
     (todoHandler t r).2 = t).
Proof.
  split; [exact Save_missing|].
  intros t r id o Hm Hk Hid Hni Hp.
  rewrite (handler_PATCH t r Hm). unfold handlePatch.
  rewrite Hk, Hp. simpl. rewrite Save_missing; [|exact Hid|exact Hni].
  simpl. split; reflexivity.
Qed.

Lemma save_unknown_id_not_found_witness :
  Save oneItem (sampleTodo 7 "x") = (Some "Not Found", sampleTodo 7 "x", oneItem) /\
  todoHandler oneItem (patchOf "/todos/7" emptyObject) = (http.NotFound, oneItem) /\
  http.Status (todoHandler oneItem (patchOf "/todos/7" emptyObject)).1 = 404 /\
  (todoHandler oneItem (patchOf "/todos/7" emptyObject)).2 = oneItem.
Proof.
  split; [reflexivity|]. split; [reflexivity|].
  apply (proj2 save_unknown_id_not_found oneItem
           (patchOf "/todos/7" emptyObject) 7 emptyObject);
    try reflexivity; [discriminate|].
  intros Hin. apply list_elem_of_singleton in Hin. discriminate.
Defined.

(** C4: in every store state and for every id, Delete returns no error; if
    an item with that id is present, the first such item is removed from
    the slice (and, ids being distinct, no item with that id remains); if
    none is present the store is unchanged; a second Delete of the same id
    returns no error either; and the dispatcher answers DELETE with an id
    that [Atoi] accepts with 204 and no body, whether or not the item was
    there. *)
Theorem delete_idempotent :
  (forall t id, (Delete t id).1 = None) /\
  (forall t id, id ∈ ids (Todos t) ->
     exists i value,
       Todos t !! i = Some value /\ Id value = id /\
       (forall j v, (j < i)%nat -> Todos t !! j = Some v -> Id v <> id) /\
       (Delete t id).2 =
         {| nextId := nextId t;
            Todos := take i (Todos t) ++ drop (S i) (Todos t) |} /\
       (NoDup (ids (Todos t)) -> id ∉ ids (Todos (Delete t id).2))) /\
  (forall t id, id ∉ ids (Todos t) -> Delete t id = (None, t)) /\
  (forall t id, (Delete (Delete t id).2 id).1 = None) /\
  (forall t r id,
     Method r = "DELETE" -> strconv.Atoi (pathKey (Path r)) = Some id ->
     todoHandler t r =
       ({| http.Status := 204; http.Body := http.Empty |}, (Delete t id).2)).
Proof.
  split; [exact Delete_no_error|]. split; [|split; [|split]].
  - intros t id Hin. destruct (indexOf_is_Some id _ Hin) as [i Hi].
    destruct (indexOf_Some id _ i Hi) as (v & Hv & Hid).
    exists i, v. unfold Delete. rewrite Hi. simpl.
    split; [exact Hv|]. split; [exact Hid|].
    split; [intros j w Hj Hw; exact (indexOf_first id _ i j w Hi Hj Hw)|].
    split; [reflexivity|].
    intros Hnd. apply remove_found_absent; assumption.
  - intros t id Hni. apply indexOf_None in Hni.
    unfold Delete. rewrite Hni. reflexivity.
  - intros t id. apply Delete_no_error.
  - intros t r id Hm Hk. rewrite (handler_DELETE t r Hm). unfold handleDelete.
    rewrite (Atoi_Some_nonempty _ _ Hk), Hk.
    pose proof (Delete_no_error t id) as He.
    destruct (Delete t id) as [e t']. simpl in He. subst e. reflexivity.
Qed.

Lemma delete_idempotent_witness :
  todoHandler oneItem (deleteOf "/todos/1") =
    ({| http.Status := 204; http.Body := http.Empty |},
     {| nextId := 2; Todos := [] |}) /\
  todoHandler {| nextId := 2; Todos := [] |} (deleteOf "/todos/1") =
    ({| http.Status := 204; http.Body := http.Empty |},
     {| nextId := 2; Todos := [] |}).
Proof.
  split.
  - exact (proj2 (proj2 (proj2 (proj2 delete_idempotent))) oneItem
             (deleteOf "/todos/1") 1 eq_refl eq_refl).
  - exact (proj2 (proj2 (proj2 (proj2 delete_idempotent)))
             {| nextId := 2; Todos := [] |}
             (deleteOf "/todos/1") 1 eq_refl eq_refl).
Defined.

(** C5, as amended: in every store state holding an item with id x (x not
    zero), Save of an item carrying id x succeeds, keeps the length of the
    slice, the sequence of ids in slice order and the counter, puts the
    saved item itself in the first position that held x (so that title,
    completed, order and also url are then those of the saved item, the id
    staying x) and leaves every other position unchanged. *)
Theorem save_update_in_place (t : MockTodoService) (todo : Todo) :
  Id todo <> 0 -> Id todo ∈ ids (Todos t) ->
  exists i old,
    indexOf (Id todo) (Todos t) = Some i /\
    Todos t !! i = Some old /\ Id old = Id todo /\
    (Save t todo).1.1 = None /\
    length (Todos (Save t todo).2) = length (Todos t) /\
    ids (Todos (Save t todo).2) = ids (Todos t) /\
    Todos (Save t todo).2 !! i = Some todo /\
    (forall j, j <> i -> Todos (Save t todo).2 !! j = Todos t !! j) /\
    nextId (Save t todo).2 = nextId t.
Proof.
  intros Hn Hin. destruct (indexOf_is_Some _ _ Hin) as [i Hi].
  destruct (indexOf_Some _ _ i Hi) as (old & Hold & Hid).
  exists i, old. rewrite (Save_update t todo i Hn Hi). simpl.
  destruct (insert_found_frame todo (Todos t) i Hi) as (Hlen & Hids & Hat & Hfr).
  repeat split; assumption || reflexivity.
Qed.

Lemma save_update_in_place_witness :
  Id sameButUrl <> 0 /\ Id sameButUrl ∈ ids (Todos storedOnce) /\
  exists i old,
    indexOf (Id sameButUrl) (Todos storedOnce) = Some i /\
    Todos storedOnce !! i = Some old /\ Id old = Id sameButUrl /\
    (Save storedOnce sameButUrl).1.1 = None /\
    length (Todos (Save storedOnce sameButUrl).2) = length (Todos storedOnce) /\
    ids (Todos (Save storedOnce sameButUrl).2) = ids (Todos storedOnce) /\
    Todos (Save storedOnce sameButUrl).2 !! i = Some sameButUrl /\
    (forall j, j <> i ->
       Todos (Save storedOnce sameButUrl).2 !! j = Todos storedOnce !! j) /\
    nextId (Save storedOnce sameButUrl).2 = nextId storedOnce.
Proof.
  assert (Id sameButUrl <> 0) as Hn by discriminate.
  assert (Id sameButUrl ∈ ids (Todos storedOnce)) as Hin by left.
  split; [exact Hn|]. split; [exact Hin|].
  exact (save_update_in_place storedOnce sameButUrl Hn Hin).
Defined.

(** C5 as stated fails: an update whose title, completed and order equal
    the stored ones still changes the stored item, in its url field. *)
Lemma save_update_replaces_url :
  (Save storedOnce sameButUrl).1.1 = None /\
  Todos storedOnce !! 0%nat = Some storedItem /\
  Todos (Save storedOnce sameButUrl).2 !! 0%nat = Some sameButUrl /\
  Title sameButUrl = Title storedItem /\
  Completed sameButUrl = Completed storedItem /\
  Order sameButUrl = Order storedItem /\
  Url sameButUrl <> Url storedItem.
Proof. repeat split; discriminate. Qed.

(** ** The dispatcher's claims *)

Lemma nonempty_length (key : string) :
  key <> "" -> (String.length key =? 0)%nat = false.
Proof. destruct key; [congruence|reflexivity]. Qed.

(** C8, as amended: for every GET, PATCH or DELETE request whose path has
    a non-empty third part, if [strconv.Atoi] rejects that part (it is not
    an optionally signed run of decimal digits that fits [int]) the
    dispatcher answers 400 with the message "Invalid Id" and leaves the
    store as it was. *)
Theorem invalid_id_bad_request (t : MockTodoService) (r : Request) :
  Method r = "GET" \/ Method r = "PATCH" \/ Method r = "DELETE" ->
  pathKey (Path r) <> "" ->
  strconv.Atoi (pathKey (Path r)) = None ->
  todoHandler t r =
    ({| http.Status := 400;
        http.Body := http.Text (String.append "Invalid Id" http.newline) |}, t).
Proof.
  intros Hm Hkey Hk. apply nonempty_length in Hkey.
  destruct Hm as [Hm|[Hm|Hm]].
  - rewrite (handler_GET t r Hm). unfold handleGet.
    rewrite Hkey, Hk. reflexivity.
  - rewrite (handler_PATCH t r Hm). unfold handlePatch.
    rewrite Hk. reflexivity.
  - rewrite (handler_DELETE t r Hm). unfold handleDelete.
    rewrite Hkey, Hk. reflexivity.
Qed.

Lemma invalid_id_bad_request_witness :
  pathKey (Path (getOf "/todos/abc")) = "abc" /\
  strconv.Atoi (pathKey (Path (getOf "/todos/abc"))) = None /\
  todoHandler oneItem (getOf "/todos/abc") =
    ({| http.Status := 400;
        http.Body := http.Text (String.append "Invalid Id" http.newline) |},
     oneItem).
Proof.
  split; [reflexivity|]. split; [reflexivity|].
  apply (invalid_id_bad_request oneItem (getOf "/todos/abc"));
    [left; reflexivity|discriminate|reflexivity].
Defined.

(** C8 as stated fails: "0" and "-5" are not positive integers, yet the
    dispatcher does not answer 400 for them; it hands the id to the
    store, and a PATCH of id 0 even changes the store. *)
Lemma nonpositive_id_not_rejected :
  pathKey "/todos/0" = "0" /\ strconv.Atoi "0" = Some 0 /\
  http.Status (todoHandler oneItem (getOf "/todos/0")).1 = 404 /\
  pathKey "/todos/-5" = "-5" /\ strconv.Atoi "-5" = Some (-5) /\
  http.Status (todoHandler oneItem (getOf "/todos/-5")).1 = 404 /\
  http.Status (todoHandler oneItem (deleteOf "/todos/0")).1 = 204 /\
  http.Status (todoHandler oneItem (patchOf "/todos/0" emptyObject)).1 = 200 /\
  (todoHandler oneItem (patchOf "/todos/0" emptyObject)).2 <> oneItem.
Proof. repeat split. discriminate. Qed.

(** C9, as amended: for every GET request whose path id [Atoi] accepts, if
    no item of the store has that id the dispatcher answers 404 with the
    text "404 page not found" that [http.NotFound] writes, and serializes
    no item; if an item has it, the dispatcher answers 200 with the first
    such item, its url set to scheme://host/todos/id. *)
Theorem get_one_item (t : MockTodoService) (r : Request) (id : Z) :
  Method r = "GET" -> strconv.Atoi (pathKey (Path r)) = Some id ->
  (id ∉ ids (Todos t) ->
     todoHandler t r =
       ({| http.Status := 404;
           http.Body :=
             http.Text (String.append "404 page not found" http.newline) |},
        t)) /\
  (id ∈ ids (Todos t) ->
     exists i todo,
       indexOf id (Todos t) = Some i /\ Todos t !! i = Some todo /\
       Id todo = id /\
       (todoHandler t r).1 =
         {| http.Status := 200;
            http.Body :=
              http.JsonTodo
                (withUrl (String.append (baseUrl r) (strconv.Itoa id)) todo) |}).
Proof.
  intros Hm Hk. rewrite (handler_GET t r Hm). unfold handleGet, Get.
  rewrite (Atoi_Some_nonempty _ _ Hk), Hk. split.
  - intros Hni. apply indexOf_None in Hni. rewrite Hni. reflexivity.
  - intros Hin. destruct (indexOf_is_Some _ _ Hin) as [i Hi].
    destruct (indexOf_Some _ _ i Hi) as (todo & Htodo & Hid).
    exists i, todo. rewrite Hi, Htodo. simpl. unfold addUrl. rewrite Hid.
    repeat split; assumption || reflexivity.
Qed.

Lemma get_one_item_witness :
  todoHandler storedOnce (getOf "/todos/9") =
    ({| http.Status := 404;
        http.Body :=
          http.Text (String.append "404 page not found" http.newline) |},
     storedOnce) /\
  exists i todo,
    indexOf 1 (Todos storedOnce) = Some i /\
    Todos storedOnce !! i = Some todo /\ Id todo = 1 /\
    (todoHandler storedOnce (getOf "/todos/1")).1 =
      {| http.Status := 200;
         http.Body :=
           http.JsonTodo
             (withUrl
                (String.append (baseUrl (getOf "/todos/1")) (strconv.Itoa 1))
                todo) |}.
Proof.
  split.
  - apply (proj1 (get_one_item storedOnce (getOf "/todos/9") 9
                    eq_refl eq_refl)).
    intros Hin. apply list_elem_of_singleton in Hin. discriminate.
  - apply (proj2 (get_one_item storedOnce (getOf "/todos/1") 1
                    eq_refl eq_refl)).
    left.
Defined.

(** C9 as stated fails: the 404 answer has a body. *)
Lemma not_found_has_body :
  (9 ∉ ids (Todos storedOnce)) /\
  http.Status (todoHandler storedOnce (getOf "/todos/9")).1 = 404 /\
  http.Body (todoHandler storedOnce (getOf "/todos/9")).1 <> http.Empty.
Proof.
  split; [|split; [reflexivity|discriminate]].
  intros Hin. apply list_elem_of_singleton in Hin. discriminate.
Qed.

(** C10: a PATCH addressed to an existing item (path id not zero, body
    decodes) puts in the item's position the decoded body with the id
    forced to the path id: each of title, completed and order that the
    body does not carry becomes the zero value (empty title, false, 0),
    whatever was stored before; the url is the one computed for the
    request.  The same item is the 200 answer. *)
Theorem patch_replaces_wholesale
    (t : MockTodoService) (r : Request) (id : Z) (o : json.Object) (i : nat) :
  Method r = "PATCH" -> strconv.Atoi (pathKey (Path r)) = Some id ->
  id <> 0 -> indexOf id (Todos t) = Some i ->
  Payload r = json.WellFormed o ->
  todoHandler t r =
    (http.Written
       (http.JsonTodo
          {| Id := id;
             Title := default "" (json.title o);
             Completed := default false (json.completed o);
             Order := default 0 (json.order o);
             Url := String.append (baseUrl r) (strconv.Itoa id) |}),
     {| nextId := nextId t;
        Todos :=
          <[i := {| Id := id;
                    Title := default "" (json.title o);
                    Completed := default false (json.completed o);
                    Order := default 0 (json.order o);
                    Url := String.append (baseUrl r) (strconv.Itoa id) |}]>
            (Todos t) |}).
Proof.
  intros Hm Hk Hid Hi Hp.
  rewrite (handler_PATCH t r Hm). unfold handlePatch.
  rewrite Hk, Hp. simpl.
  set (todo := withId id _).
  assert (Id todo = id) as Htid by reflexivity.
  rewrite (Save_update t todo i); [|rewrite Htid; exact Hid
                                   |rewrite Htid; exact Hi].
  unfold savedAt. rewrite Htid.
  destruct (Z.eqb_spec id 0) as [E|_]; [contradiction|].
  rewrite Hi. unfold storeAt. simpl.
  rewrite list_insert_insert_eq. reflexivity.
Qed.

Lemma patch_replaces_wholesale_witness :
  todoHandler titledItem (patchOf "/todos/1" completedOnly) =
    (http.Written
       (http.JsonTodo
          {| Id := 1; Title := ""; Completed := true; Order := 0;
             Url := "http://example.com/todos/1" |}),
     {| nextId := 2;
        Todos := [{| Id := 1; Title := ""; Completed := true; Order := 0;
                     Url := "http://example.com/todos/1" |}] |}).
Proof.
  apply (patch_replaces_wholesale titledItem
           (patchOf "/todos/1" completedOnly) 1 completedOnly 0%nat);
    reflexivity || discriminate.
Defined.

(** * Further properties of the store *)

Lemma Get_firstWith (t : MockTodoService) (id : Z) :
  Get t id = (firstWith id (Todos t), None).
Proof.
  unfold Get. induction (Todos t) as [|v l IH]; simpl; [reflexivity|].
  destruct (Z.eqb_spec (Id v) id) as [E|E]; [reflexivity|].
  destruct (indexOf id l) as [i|]; simpl in *; exact IH.
Qed.

Lemma Delete_removeFirst (t : MockTodoService) (id : Z) :
  Delete t id = (None, {| nextId := nextId t; Todos := removeFirst id (Todos t) |}).
Proof.
  unfold Delete. destruct t as [n l]. simpl.
  assert (match indexOf id l with
          | Some i => take i l ++ drop (S i) l
          | None => l
          end = removeFirst id l) as H.
  { induction l as [|v l IH]; simpl; [reflexivity|].
    destruct (Z.eqb_spec (Id v) id) as [E|E]; simpl.
    - rewrite drop_0. reflexivity.
    - destruct (indexOf id l) as [i|]; simpl in *; rewrite <- IH; reflexivity. }
  destruct (indexOf id l) as [i|]; rewrite <- H; reflexivity.
Qed.

Lemma firstWith_None (id : Z) (l : list Todo) :
  firstWith id l = None <-> id ∉ ids l.
Proof.
  unfold ids. induction l as [|v l IH]; simpl.
  - split; [intros _; apply not_elem_of_nil|reflexivity].
  - rewrite not_elem_of_cons. destruct (Z.eqb_spec (Id v) id) as [E|E].
    + split; [discriminate|]. intros [H _]. congruence.
    + rewrite IH. split; [intros H; split; [congruence|exact H]|intros [_ H]; exact H].
Qed.

Lemma firstWith_Some (id : Z) (l : list Todo) (todo : Todo) :
  firstWith id l = Some todo -> Id todo = id /\ todo ∈ l.
Proof.
  induction l as [|v l IH]; simpl; [discriminate|].
  destruct (Z.eqb_spec (Id v) id) as [E|E].
  - intros [= <-]. split; [exact E|left].
  - intros H. destruct (IH H) as [H1 H2]. split; [exact H1|right; exact H2].
Qed.

Lemma firstWith_app (id : Z) (l k : list Todo) :
  firstWith id (l ++ k) =
    match firstWith id l with
    | Some todo => Some todo
    | None => firstWith id k
    end.
Proof.
  induction l as [|v l IH]; simpl; [reflexivity|].
  destruct (Id v =? id)%Z; [reflexivity|exact IH].
Qed.

Lemma firstWith_insert_found (todo : Todo) (l : list Todo) (i : nat) (id : Z) :
  indexOf (Id todo) l = Some i ->
  firstWith id (<[i := todo]> l) =
    if (Id todo =? id)%Z then Some todo else firstWith id l.
Proof.
  revert i. induction l as [|v l IH]; intros i; simpl; [discriminate|].
  destruct (Z.eqb_spec (Id v) (Id todo)) as [E|E].
  - intros [= <-]. simpl. rewrite E.
    destruct (Id todo =? id)%Z; reflexivity.
  - destruct (indexOf (Id todo) l) as [j|] eqn:Hj; simpl; [|discriminate].
    intros [= <-]. simpl. rewrite (IH j eq_refl).
    destruct (Z.eqb_spec (Id v) id) as [E1|E1];
      destruct (Z.eqb_spec (Id todo) id) as [E2|E2]; congruence.
Qed.

Lemma firstWith_removeFirst_ne (id id' : Z) (l : list Todo) :
  id' <> id -> firstWith id' (removeFirst id l) = firstWith id' l.
Proof.
  intros Hne. induction l as [|v l IH]; simpl; [reflexivity|].
  destruct (Z.eqb_spec (Id v) id) as [E|E]; simpl.
  - destruct (Z.eqb_spec (Id v) id') as [E'|E']; [congruence|reflexivity].
  - rewrite IH. reflexivity.
Qed.

Lemma removeFirst_absent (id : Z) (l : list Todo) :
  id ∉ ids l -> removeFirst id l = l.
Proof.
  unfold ids. induction l as [|v l IH]; simpl; [reflexivity|].
  rewrite not_elem_of_cons. intros [H1 H2].
  destruct (Z.eqb_spec (Id v) id) as [E|E]; [congruence|].
  rewrite (IH H2). reflexivity.
Qed.

Lemma removeFirst_NoDup_absent (id : Z) (l : list Todo) :
  NoDup (ids l) -> id ∉ ids (removeFirst id l).
Proof.
  unfold ids. induction l as [|v l IH]; simpl; [intros _; apply not_elem_of_nil|].
  intros Hnd. apply NoDup_cons in Hnd as [Hv Hnd].
  destruct (Z.eqb_spec (Id v) id) as [E|E]; simpl.
  - rewrite <- E. exact Hv.
  - apply not_elem_of_cons. split; [congruence|]. apply IH. exact Hnd.
Qed.

Lemma removeFirst_comm (a b : Z) (l : list Todo) :
  removeFirst a (removeFirst b l) = removeFirst b (removeFirst a l).
Proof.
  induction l as [|v l IH]; simpl; [reflexivity|].
  destruct (Z.eqb_spec (Id v) b) as [Eb|Eb];
    destruct (Z.eqb_spec (Id v) a) as [Ea|Ea]; simpl.
  - congruence.
  - destruct (Z.eqb_spec (Id v) b); [reflexivity|contradiction].
  - destruct (Z.eqb_spec (Id v) a); [reflexivity|contradiction].
  - destruct (Z.eqb_spec (Id v) a); [contradiction|].
    destruct (Z.eqb_spec (Id v) b); [contradiction|].
    rewrite IH. reflexivity.
Qed.

(** X1: Get never returns an error; for an id that no item carries it
    returns no item, and otherwise it returns the first item of the slice
    that carries the id. *)
Theorem get_finds_first (t : MockTodoService) (id : Z) :
  (id ∉ ids (Todos t) -> Get t id = (None, None)) /\
  (id ∈ ids (Todos t) ->
     exists i todo,
       Get t id = (Some todo, None) /\
       Todos t !! i = Some todo /\ Id todo = id /\
       (forall j v, (j < i)%nat -> Todos t !! j = Some v -> Id v <> id)).
Proof.
  split.
  - intros Hni. apply indexOf_None in Hni. unfold Get. rewrite Hni. reflexivity.
  - intros Hin. destruct (indexOf_is_Some _ _ Hin) as [i Hi].
    destruct (indexOf_Some _ _ i Hi) as (todo & Htodo & Hid).
    exists i, todo. unfold Get. rewrite Hi, Htodo.
    split; [reflexivity|]. split; [reflexivity|]. split; [exact Hid|].
    intros j v Hj Hv. exact (indexOf_first id _ i j v Hi Hj Hv).
Qed.

Lemma get_finds_first_witness :
  Get storedOnce 9 = (None, None) /\
  exists i todo,
    Get storedOnce 1 = (Some todo, None) /\
    Todos storedOnce !! i = Some todo /\ Id todo = 1 /\
    (forall j v, (j < i)%nat -> Todos storedOnce !! j = Some v -> Id v <> 1).
Proof.
  split.
  - apply (proj1 (get_finds_first storedOnce 9)).
    intros Hin. apply list_elem_of_singleton in Hin. discriminate.
  - apply (proj2 (get_finds_first storedOnce 1)). left.
Defined.

(** X2: read after write for a create.  When the counter is not the id of
    an item already in the slice, Get of the id that Save assigned returns
    the item that was saved. *)
Theorem get_after_create (t : MockTodoService) (todo : Todo) :
  Id todo = 0 -> nextId t ∉ ids (Todos t) ->
  Get (Save t todo).2 (Id (Save t todo).1.2) = (Some (Save t todo).1.2, None).
Proof.
  intros H0 Hni. rewrite (Save_create t todo H0). simpl.
  rewrite Get_firstWith. simpl. rewrite firstWith_app.
  apply firstWith_None in Hni. rewrite Hni. simpl.
  rewrite Z.eqb_refl. reflexivity.
Qed.

Lemma get_after_create_witness :
  Id (sampleTodo 0 "b") = 0 /\ (nextId oneItem ∉ ids (Todos oneItem)) /\
  Get (Save oneItem (sampleTodo 0 "b")).2 2 = (Some (sampleTodo 2 "b"), None).
Proof.
  assert (nextId oneItem ∉ ids (Todos oneItem)) as Hni.
  { intros Hin. apply list_elem_of_singleton in Hin. discriminate. }
  split; [reflexivity|]. split; [exact Hni|].
  exact (get_after_create oneItem (sampleTodo 0 "b") eq_refl Hni).
Defined.

(** X3: read after write for an update.  After a Save that carries the
    non-zero id of an item of the slice, Get of that id returns the saved
    item. *)
Theorem get_after_update (t : MockTodoService) (todo : Todo) :
  Id todo <> 0 -> Id todo ∈ ids (Todos t) ->
  Get (Save t todo).2 (Id todo) = (Some todo, None).
Proof.
  intros Hn Hin. destruct (indexOf_is_Some _ _ Hin) as [i Hi].
  rewrite (Save_update t todo i Hn Hi), Get_firstWith. simpl.
  rewrite (firstWith_insert_found todo _ i _ Hi), Z.eqb_refl. reflexivity.
Qed.

Lemma get_after_update_witness :
  Id sameButUrl <> 0 /\ Id sameButUrl ∈ ids (Todos storedOnce) /\
  Get (Save storedOnce sameButUrl).2 1 = (Some sameButUrl, None).
Proof.
  assert (Id sameButUrl <> 0) as Hn by discriminate.
  assert (Id sameButUrl ∈ ids (Todos storedOnce)) as Hin by left.
  split; [exact Hn|]. split; [exact Hin|].
  exact (get_after_update storedOnce sameButUrl Hn Hin).
Defined.

(** X4: Save changes what Get returns for one id only, the id the saved
    item has after the call (the assigned one for a create): for every
    other id Get returns after the Save what it returned before, whether
    the Save created, updated or failed. *)
Theorem save_frames_other_ids (t : MockTodoService) (todo : Todo) (id : Z) :
  id <> Id (Save t todo).1.2 -> Get (Save t todo).2 id = Get t id.
Proof.
  rewrite !Get_firstWith. unfold Save.
  destruct (Z.eqb_spec (Id todo) 0) as [E0|E0]; simpl.
  - intros Hne. rewrite firstWith_app. simpl.
    destruct (Z.eqb_spec (nextId t) id) as [E|_]; [congruence|].
    destruct (firstWith id (Todos t)); reflexivity.
  - destruct (indexOf (Id todo) (Todos t)) as [i|] eqn:Hi; simpl; [|reflexivity].
    intros Hne. rewrite (firstWith_insert_found todo _ i id Hi).
    destruct (Z.eqb_spec (Id todo) id) as [E|_]; [congruence|reflexivity].
Qed.

Lemma save_frames_other_ids_witness :
  1 <> Id (Save oneItem (sampleTodo 0 "b")).1.2 /\
  Get (Save oneItem (sampleTodo 0 "b")).2 1 = (Some (sampleTodo 1 "a"), None).
Proof.
  assert (1 <> Id (Save oneItem (sampleTodo 0 "b")).1.2) as Hne by discriminate.
  split; [exact Hne|].
  exact (save_frames_other_ids oneItem (sampleTodo 0 "b") 1 Hne).
Defined.

(** X5: after Delete of an id, Get of every other id returns what it
    returned before; and when the ids of the slice are distinct, Get of
    the deleted id returns no item. *)
Theorem get_after_delete (t : MockTodoService) (id : Z) :
  (forall id', id' <> id -> Get (Delete t id).2 id' = Get t id') /\
  (NoDup (ids (Todos t)) -> Get (Delete t id).2 id = (None, None)).
Proof.
  rewrite Delete_removeFirst. simpl. split.
  - intros id' Hne. rewrite !Get_firstWith. simpl.
    rewrite (firstWith_removeFirst_ne id id' _ Hne). reflexivity.
  - intros Hnd. rewrite Get_firstWith. simpl.
    apply (removeFirst_NoDup_absent id) in Hnd.
    apply firstWith_None in Hnd. rewrite Hnd. reflexivity.
Qed.

Lemma get_after_delete_witness :
  Get (Delete twoItems 1).2 2 = (Some (sampleTodo 2 "b"), None) /\
  Get (Delete twoItems 1).2 1 = (None, None).
Proof.
  split.
  - apply (proj1 (get_after_delete twoItems 1) 2). discriminate.
  - apply (proj2 (get_after_delete twoItems 1)).
    apply (run_ids_NoDup [OpSave (sampleTodo 0 "a"); OpSave (sampleTodo 0 "b")]).
    reflexivity.
Defined.

(** X6: when the ids of the slice are distinct, a second Delete of the
    same id leaves the store exactly as the first Delete left it. *)
Theorem delete_twice_same_store (t : MockTodoService) (id : Z) :
  NoDup (ids (Todos t)) ->
  Delete (Delete t id).2 id = Delete t id.
Proof.
  intros Hnd. rewrite !Delete_removeFirst. simpl.
  rewrite (removeFirst_absent id (removeFirst id (Todos t)));
    [reflexivity|].
  apply removeFirst_NoDup_absent. exact Hnd.
Qed.

Lemma delete_twice_same_store_witness :
  NoDup (ids (Todos twoItems)) /\
  Delete (Delete twoItems 1).2 1 =
    (None, {| nextId := 3; Todos := [sampleTodo 2 "b"] |}).
Proof.
  assert (NoDup (ids (Todos twoItems))) as Hnd.
  { apply (run_ids_NoDup
             [OpSave (sampleTodo 0 "a"); OpSave (sampleTodo 0 "b")]).
    reflexivity. }
  split; [exact Hnd|].
  exact (delete_twice_same_store twoItems 1 Hnd).
Defined.

(** X7: two Deletes commute: deleting id a and then id b leaves the same
    store as deleting b and then a, in every store state. *)
Theorem delete_commutes (t : MockTodoService) (a b : Z) :
  (Delete (Delete t a).2 b).2 = (Delete (Delete t b).2 a).2.
Proof.
  rewrite !Delete_removeFirst. simpl. rewrite removeFirst_comm. reflexivity.
Qed.

(** X8: when the counter is not the id of an item already in the slice, a
    create followed by Delete of the id it assigned leaves the slice as it
    was before the create; the counter stays incremented, so the id is not
    handed out again by the next create. *)
Theorem create_then_delete (t : MockTodoService) (todo : Todo) :
  Id todo = 0 -> nextId t ∉ ids (Todos t) ->
  Delete (Save t todo).2 (Id (Save t todo).1.2) =
    (None, {| nextId := GoInt.incr (nextId t); Todos := Todos t |}).
Proof.
  intros H0 Hni. rewrite (Save_create t todo H0), Delete_removeFirst. simpl.
  f_equal. f_equal.
  induction (Todos t) as [|v l IH]; simpl.
  - rewrite Z.eqb_refl. reflexivity.
  - unfold ids in Hni. simpl in Hni. apply not_elem_of_cons in Hni as [H1 H2].
    destruct (Z.eqb_spec (Id v) (nextId t)) as [E|_]; [congruence|].
    rewrite (IH H2). reflexivity.
Qed.

Lemma create_then_delete_witness :
  Id (sampleTodo 0 "b") = 0 /\ (nextId oneItem ∉ ids (Todos oneItem)) /\
  Delete (Save oneItem (sampleTodo 0 "b")).2 2 =
    (None, {| nextId := 3; Todos := [sampleTodo 1 "a"] |}).
Proof.
  assert (nextId oneItem ∉ ids (Todos oneItem)) as Hni.
  { intros Hin. apply list_elem_of_singleton in Hin. discriminate. }
  split; [reflexivity|]. split; [exact Hni|].
  exact (create_then_delete oneItem (sampleTodo 0 "b") eq_refl Hni).
Defined.

Lemma indexOf_insert_found (todo : Todo) (l : list Todo) (i : nat) (id : Z) :
  indexOf (Id todo) l = Some i -> indexOf id (<[i := todo]> l) = indexOf id l.
Proof.
  revert i. induction l as [|v l IH]; intros i; simpl; [discriminate|].
  destruct (Z.eqb_spec (Id v) (Id todo)) as [E|E].
  - intros [= <-]. simpl. rewrite E. reflexivity.
  - destruct (indexOf (Id todo) l) as [j|] eqn:Hj; simpl; [|discriminate].
    intros [= <-]. simpl. rewrite (IH j eq_refl). reflexivity.
Qed.

(** X9: the last update wins.  Two Saves in a row that carry the same
    non-zero id leave the store as the second Save alone would have left
    it, and return the second Save's outcome. *)
Theorem update_last_wins (t : MockTodoService) (a b : Todo) :
  Id a <> 0 -> Id b = Id a ->
  Save (Save t a).2 b = Save t b.
Proof.
  intros Hn Hab. assert (Id b <> 0) as Hnb by congruence.
  destruct (indexOf (Id a) (Todos t)) as [i|] eqn:Hi.
  - rewrite (Save_update t a i Hn Hi). simpl.
    assert (indexOf (Id b) (Todos t) = Some i) as Hib by (rewrite Hab; exact Hi).
    rewrite (Save_update t b i Hnb Hib).
    rewrite (Save_update _ b i Hnb); simpl.
    + rewrite list_insert_insert_eq. reflexivity.
    + rewrite (indexOf_insert_found a _ i _ Hi). exact Hib.
  - apply indexOf_None in Hi.
    rewrite (Save_missing t a Hn Hi). simpl. reflexivity.
Qed.

Lemma update_last_wins_witness :
  Id (sampleTodo 1 "x") <> 0 /\ Id (sampleTodo 1 "y") = Id (sampleTodo 1 "x") /\
  Save (Save twoItems (sampleTodo 1 "x")).2 (sampleTodo 1 "y") =
    (None, sampleTodo 1 "y",
     {| nextId := 3; Todos := [sampleTodo 1 "y"; sampleTodo 2 "b"] |}).
Proof.
  assert (Id (sampleTodo 1 "x") <> 0) as Hn by discriminate.
  split; [exact Hn|]. split; [reflexivity|].
  exact (update_last_wins twoItems (sampleTodo 1 "x") (sampleTodo 1 "y")
           Hn eq_refl).
Defined.

(** * Further properties of the dispatcher *)

Lemma handler_POST (t : MockTodoService) (r : Request) :
  Method r = "POST" -> todoHandler t r = handlePost t r (pathKey (Path r)).
Proof. intros H. unfold todoHandler. rewrite H. reflexivity. Qed.

(** X10: a POST to the collection root whose body decodes always creates:
    the answer is 201 with the new item, whose id is the counter, whose
    title, completed and order are those of the body (empty, false and 0
    where the body has none) and whose url is the computed one; the store
    has that same item appended and the counter incremented. *)
Theorem post_creates (t : MockTodoService) (r : Request) (o : json.Object) :
  Method r = "POST" -> pathKey (Path r) = "" ->
  Payload r = json.WellFormed o ->
  todoHandler t r =
    ({| http.Status := 201;
        http.Body :=
          http.JsonTodo
            {| Id := nextId t;
               Title := default "" (json.title o);
               Completed := default false (json.completed o);
               Order := default 0 (json.order o);
               Url := String.append (baseUrl r) (strconv.Itoa (nextId t)) |} |},
     {| nextId := GoInt.incr (nextId t);
        Todos :=
          Todos t ++
          [{| Id := nextId t;
              Title := default "" (json.title o);
              Completed := default false (json.completed o);
              Order := default 0 (json.order o);
              Url := String.append (baseUrl r) (strconv.Itoa (nextId t)) |}] |}).
Proof.
  intros Hm Hk Hp. rewrite (handler_POST t r Hm), Hk. unfold handlePost.
  rewrite Hp. simpl. unfold storeAt. simpl.
  rewrite insert_app_r_alt by lia. rewrite Nat.sub_diag. reflexivity.
Qed.

Lemma post_creates_witness :
  todoHandler oneItem (postOf (titleOnly "b")) =
    ({| http.Status := 201;
        http.Body :=
          http.JsonTodo
            {| Id := 2; Title := "b"; Completed := false; Order := 0;
               Url := "http://example.com/todos/2" |} |},
     {| nextId := 3;
        Todos :=
          [sampleTodo 1 "a";
           {| Id := 2; Title := "b"; Completed := false; Order := 0;
              Url := "http://example.com/todos/2" |}] |}).
Proof.
  exact (post_creates oneItem (postOf (titleOnly "b")) (titleOnly "b")
           eq_refl eq_refl eq_refl).
Defined.

(** X11: a POST whose path has a non-empty third part is answered 405
    with the message "Method not allowed", and the store is left as it
    was, whatever the body. *)
Theorem post_with_id_not_allowed (t : MockTodoService) (r : Request) :
  Method r = "POST" -> pathKey (Path r) <> "" ->
  todoHandler t r =
    ({| http.Status := 405;
        http.Body :=
          http.Text (String.append "Method not allowed" http.newline) |}, t).
Proof.
  intros Hm Hk. rewrite (handler_POST t r Hm). unfold handlePost.
  destruct (pathKey (Path r)); [congruence|reflexivity].
Qed.

Lemma post_with_id_not_allowed_witness :
  pathKey (Path (postTo "/todos/3" (titleOnly "b"))) = "3" /\
  todoHandler oneItem (postTo "/todos/3" (titleOnly "b")) =
    ({| http.Status := 405;
        http.Body :=
          http.Text (String.append "Method not allowed" http.newline) |},
     oneItem).
Proof.
  split; [reflexivity|].
  apply (post_with_id_not_allowed oneItem (postTo "/todos/3" (titleOnly "b")));
    [reflexivity|discriminate].
Defined.

(** X12: a body that does not decode is answered 422 with the decoder's
    message and the store is left as it was, on a POST to the collection
    root and on a PATCH whose path id [Atoi] accepts (whether or not an
    item has that id). *)
Theorem malformed_body_unprocessable
    (t : MockTodoService) (r : Request) (msg : string) :
  Payload r = json.Malformed msg ->
  (Method r = "POST" /\ pathKey (Path r) = "") \/
  (Method r = "PATCH" /\ exists id, strconv.Atoi (pathKey (Path r)) = Some id) ->
  todoHandler t r =
    ({| http.Status := 422;
        http.Body := http.Text (String.append msg http.newline) |}, t).
Proof.
  intros Hp [[Hm Hk]|[Hm [id Hk]]].
  - rewrite (handler_POST t r Hm), Hk. unfold handlePost.
    rewrite Hp. reflexivity.
  - rewrite (handler_PATCH t r Hm). unfold handlePatch.
    rewrite Hk, Hp. reflexivity.
Qed.

Lemma malformed_body_unprocessable_witness :
  Payload badPatch = json.Malformed "unexpected EOF" /\
  strconv.Atoi (pathKey (Path badPatch)) = Some 1 /\
  todoHandler oneItem badPatch =
    ({| http.Status := 422;
        http.Body :=
          http.Text (String.append "unexpected EOF" http.newline) |},
     oneItem).
Proof.
  split; [reflexivity|]. split; [reflexivity|].
  apply (malformed_body_unprocessable oneItem badPatch "unexpected EOF");
    [reflexivity|].
  right. split; [reflexivity|]. exists 1. reflexivity.
Defined.

(** X13: every method other than GET, POST, PATCH and DELETE is answered
    405 with the message "Method Not Allowed", and the store is left as it
    was, whatever the path and the body. *)
Theorem other_methods_not_allowed (t : MockTodoService) (r : Request) :
  Method r <> "GET" -> Method r <> "POST" -> Method r <> "PATCH" ->
  Method r <> "DELETE" ->
  todoHandler t r =
    ({| http.Status := 405;
        http.Body :=
          http.Text (String.append "Method Not Allowed" http.newline) |}, t).
Proof.
  intros H1 H2 H3 H4. unfold todoHandler.
  apply String.eqb_neq in H1, H2, H3, H4.
  rewrite H1, H2, H3, H4. reflexivity.
Qed.

Lemma other_methods_not_allowed_witness :
  todoHandler oneItem (putOf "/todos/1") =
    ({| http.Status := 405;
        http.Body :=
          http.Text (String.append "Method Not Allowed" http.newline) |},
     oneItem).
Proof.
  apply (other_methods_not_allowed oneItem (putOf "/todos/1")); discriminate.
Defined.

Lemma append_assoc (a b c : string) :
  String.append (String.append a b) c = String.append a (String.append b c).
Proof.
  induction a as [|x a IH]; [reflexivity|].
  change (String x (String.append (String.append a b) c) =
          String x (String.append a (String.append b c))).
  f_equal. exact IH.
Qed.

(** X14: the url that [addUrlToTodos] gives an item is
    scheme://host/todos/id, with scheme https exactly when the request
    came over TLS; it is computed from the request and the item's id
    alone, whatever url the item carried; ids, titles, completed flags and
    orders are kept; and applying it twice is applying it once. *)
Theorem url_derivation (r : Request) (todos : list Todo) :
  (forall i x, todos !! i = Some x ->
     addUrlToTodos r todos !! i =
       Some {| Id := Id x; Title := Title x; Completed := Completed x;
               Order := Order x;
               Url := String.append (if TLS r then "https" else "http")
                        (String.append "://"
                           (String.append (Host r)
                              (String.append "/todos/"
                                 (strconv.Itoa (Id x))))) |}) /\
  length (addUrlToTodos r todos) = length todos /\
  (forall u, addUrlToTodos r (withUrl u <$> todos) = addUrlToTodos r todos) /\
  addUrlToTodos r (addUrlToTodos r todos) = addUrlToTodos r todos.
Proof.
  unfold addUrlToTodos. split; [|split; [|split]].
  - intros i x Hx. rewrite list_lookup_fmap, Hx. simpl.
    unfold addUrl, withUrl, baseUrl. f_equal. f_equal.
    rewrite !append_assoc. reflexivity.
  - apply length_fmap.
  - intros u. rewrite <- list_fmap_compose. reflexivity.
  - rewrite <- list_fmap_compose. reflexivity.
Qed.

Lemma url_derivation_witness :
  [sameButUrl] !! 0%nat = Some sameButUrl /\
  addUrlToTodos (getAt 1) [sameButUrl] !! 0%nat = Some storedItem.
Proof.
  split; [reflexivity|].
  exact (proj1 (url_derivation (getAt 1) [sameButUrl]) 0%nat sameButUrl eq_refl).
Defined.

Lemma handler_GET_all (t : MockTodoService) (r : Request) :
  Method r = "GET" -> pathKey (Path r) = "" ->
  todoHandler t r =
    (http.Written (http.JsonTodos (addUrlToTodos r (Todos t))),
     {| nextId := nextId t; Todos := addUrlToTodos r (Todos t) |}).
Proof.
  intros Hm Hk. rewrite (handler_GET t r Hm), Hk. reflexivity.
Qed.

(** X15: a GET of the collection root is answered 200 with every item of
    the store, in the store's order and with its stored title, completed
    and order, each under its computed url; the store keeps its counter
    and its items, which now carry those urls. *)
Theorem get_all_lists_store (t : MockTodoService) (r : Request) :
  Method r = "GET" -> pathKey (Path r) = "" ->
  exists todos,
    todoHandler t r =
      ({| http.Status := 200; http.Body := http.JsonTodos todos |},
       {| nextId := nextId t; Todos := todos |}) /\
    length todos = length (Todos t) /\
    ids todos = ids (Todos t) /\
    (forall i x, Todos t !! i = Some x ->
       todos !! i =
         Some (withUrl (String.append (baseUrl r) (strconv.Itoa (Id x))) x)).
Proof.
  intros Hm Hk. exists (addUrlToTodos r (Todos t)).
  split; [exact (handler_GET_all t r Hm Hk)|].
  unfold addUrlToTodos. split; [apply length_fmap|]. split.
  - unfold ids. rewrite <- list_fmap_compose. reflexivity.
  - intros i x Hx. rewrite list_lookup_fmap, Hx. reflexivity.
Qed.

Lemma get_all_lists_store_witness :
  exists todos,
    todoHandler twoItems (getOf "/todos") =
      ({| http.Status := 200; http.Body := http.JsonTodos todos |},
       {| nextId := nextId twoItems; Todos := todos |}) /\
    length todos = length (Todos twoItems) /\
    ids todos = ids (Todos twoItems) /\
    (forall i x, Todos twoItems !! i = Some x ->
       todos !! i =
         Some (withUrl (String.append (baseUrl (getOf "/todos"))
                          (strconv.Itoa (Id x))) x)).
Proof.
  exact (get_all_lists_store twoItems (getOf "/todos") eq_refl eq_refl).
Defined.

(** Every answer of the dispatcher is a success that may have changed the
    store, or a client error that has not. *)
Lemma handler_outcomes (t : MockTodoService) (r : Request) :
  http.Status (todoHandler t r).1 ∈ ([200; 201; 204] : list Z) \/
  (http.Status (todoHandler t r).1 ∈ ([400; 404; 405; 422] : list Z) /\
   (todoHandler t r).2 = t).
Proof.
  assert (forall (x : Z) (l : list Z), bool_decide (x ∈ l) = true -> x ∈ l) as dec
    by (intros x l; apply bool_decide_eq_true_1).
  unfold todoHandler. generalize (pathKey (Path r)) as key. intros key.
  destruct (String.eqb (Method r) "GET").
  { unfold handleGet, Get. destruct (String.length key =? 0)%nat; simpl.
    - left. apply dec. reflexivity.
    - destruct (strconv.Atoi key) as [id|]; simpl.
      + destruct (indexOf id (Todos t)) as [i|]; simpl.
        * destruct (Todos t !! i); simpl;
            [left|right; split; [|reflexivity]]; apply dec; reflexivity.
        * right. split; [apply dec|]; reflexivity.
      + right. split; [apply dec|]; reflexivity. }
  destruct (String.eqb (Method r) "POST").
  { unfold handlePost. destruct (0 <? String.length key)%nat; simpl.
    - right. split; [apply dec|]; reflexivity.
    - destruct (Payload r); simpl.
      + right. split; [apply dec|]; reflexivity.
      + left. apply dec. reflexivity. }
  destruct (String.eqb (Method r) "PATCH").
  { unfold handlePatch. destruct (strconv.Atoi key) as [id|]; simpl.
    - destruct (Payload r); simpl.
      + right. split; [apply dec|]; reflexivity.
      + unfold Save. simpl. destruct (id =? 0)%Z; simpl.
        * left. apply dec. reflexivity.
        * destruct (indexOf id (Todos t)); simpl;
            [left|right; split; [|reflexivity]]; apply dec; reflexivity.
    - right. split; [apply dec|]; reflexivity. }
  destruct (String.eqb (Method r) "DELETE").
  { unfold handleDelete. destruct (String.length key =? 0)%nat; simpl.
    - left. apply dec. reflexivity.
    - destruct (strconv.Atoi key) as [id|]; simpl.
      + unfold Delete. destruct (indexOf id (Todos t)); simpl;
          left; apply dec; reflexivity.
      + right. split; [apply dec|]; reflexivity. }
  right. split; [apply dec|]; reflexivity.
Qed.

(** X16: the dispatcher answers with one of the statuses 200, 201, 204,
    400, 404, 405 and 422, for every store and every request: its 500
    branches are never taken, because GetAll, Get and Delete return no
    error and the only error of Save is the one turned into 404. *)
Theorem handler_status_codes (t : MockTodoService) (r : Request) :
  http.Status (todoHandler t r).1 ∈ ([200; 201; 204; 400; 404; 405; 422] : list Z) /\
  http.Status (todoHandler t r).1 <> http.StatusInternalServerError.
Proof.
  assert (http.Status (todoHandler t r).1 ∈ ([200; 201; 204; 400; 404; 405; 422] : list Z))
    as Hin.
  { destruct (handler_outcomes t r) as [H|[H _]]; revert H;
      generalize (http.Status (todoHandler t r).1); intros s H;
      rewrite !elem_of_cons, elem_of_nil in H;
      rewrite !elem_of_cons, elem_of_nil; tauto. }
  split; [exact Hin|]. intros E. rewrite E in Hin.
  rewrite !elem_of_cons, elem_of_nil in Hin.
  unfold http.StatusInternalServerError in Hin.
  repeat (destruct Hin as [Hin|Hin]; [discriminate|]). exact Hin.
Qed.

(** X17: a request that is answered with a status of 400 or more leaves
    the store exactly as it was: a failed request changes nothing. *)
Theorem errors_leave_store (t : MockTodoService) (r : Request) :
  400 <= http.Status (todoHandler t r).1 -> (todoHandler t r).2 = t.
Proof.
  intros Hs. destruct (handler_outcomes t r) as [H|[_ H]]; [|exact H].
  exfalso. revert Hs. generalize dependent (http.Status (todoHandler t r).1).
  intros s Hin Hs. rewrite !elem_of_cons in Hin.
  destruct Hin as [->|[->|[->|Hin]]]; [lia|lia|lia|].
  apply elem_of_nil in Hin. exact Hin.
Qed.

Lemma errors_leave_store_witness :
  400 <= http.Status (todoHandler oneItem (getOf "/todos/9")).1 /\
  (todoHandler oneItem (getOf "/todos/9")).2 = oneItem.
Proof.
  assert (400 <= http.Status (todoHandler oneItem (getOf "/todos/9")).1)
    as Hs by discriminate.
  split; [exact Hs|].
  exact (errors_leave_store oneItem (getOf "/todos/9") Hs).
Defined.

(** ** Reading the path *)

Lemma Split_nonempty (s : string) (sep : ascii) : strings.Split s sep <> [].
Proof.
  destruct s as [|c s]; simpl; [discriminate|].
  destruct (Ascii.eqb c sep); [discriminate|].
  destruct (strings.Split s sep); discriminate.
Qed.

Lemma Split_no_sep (s : string) (sep : ascii) :
  sep ∉ list_ascii_of_string s -> strings.Split s sep = [s].
Proof.
  induction s as [|c s IH]; simpl; [reflexivity|].
  rewrite not_elem_of_cons. intros [Hc Hs].
  destruct (Ascii.eqb_spec c sep) as [E|_]; [congruence|].
  rewrite (IH Hs). reflexivity.
Qed.

Lemma Split_app (a s : string) (sep : ascii) :
  sep ∉ list_ascii_of_string a ->
  strings.Split (String.append a (String sep s)) sep = a :: strings.Split s sep.
Proof.
  induction a as [|c a IH].
  - intros _. change (String.append "" (String sep s)) with (String sep s).
    simpl. rewrite Ascii.eqb_refl. reflexivity.
  - simpl list_ascii_of_string. rewrite not_elem_of_cons. intros [Hc Ha].
    change (String.append (String c a) (String sep s))
      with (String c (String.append a (String sep s))).
    simpl. destruct (Ascii.eqb_spec c sep) as [E|_]; [congruence|].
    rewrite (IH Ha). reflexivity.
Qed.

(** X18: how the dispatcher reads the path.  For a path /a/seg, with no
    slash inside a and seg, the key is seg; whatever follows a further
    slash is ignored; and a path /a has the empty key.  The first part a
    is not looked at. *)
Theorem pathKey_segments (a seg rest : string) :
  "/"%char ∉ list_ascii_of_string a ->
  "/"%char ∉ list_ascii_of_string seg ->
  pathKey (String "/" a) = "" /\
  pathKey (String "/" (String.append a (String "/" seg))) = seg /\
  pathKey (String "/" (String.append a
             (String "/" (String.append seg (String "/" rest))))) = seg.
Proof.
  intros Ha Hseg. unfold pathKey. simpl strings.Split.
  rewrite (Split_no_sep a _ Ha), !(Split_app a _ _ Ha),
    (Split_no_sep seg _ Hseg), (Split_app seg _ _ Hseg).
  split; [reflexivity|]. split; reflexivity.
Qed.

Lemma pathKey_segments_witness :
  pathKey "/todos" = "" /\ pathKey "/todos/17" = "17" /\
  pathKey "/todos/17/anything/else" = "17".
Proof.
  assert ("/"%char ∉ list_ascii_of_string "todos") as Ha.
  { intros H. apply list_elem_of_In in H. simpl in H.
    repeat (destruct H as [H|H]; [discriminate|]). exact H. }
  assert ("/"%char ∉ list_ascii_of_string "17") as Hs.
  { intros H. apply list_elem_of_In in H. simpl in H.
    repeat (destruct H as [H|H]; [discriminate|]). exact H. }
  exact (pathKey_segments "todos" "17" "anything/else" Ha Hs).
Defined.

(** ** The id in the url reads back *)

Lemma digits_of_uint_acc (d : Decimal.uint) (p : positive) :
  strconv.digits (Z.pos p)
    (list_ascii_of_string (NilEmpty.string_of_uint d)) =
  Some (Z.pos (Pos.of_uint_acc d p)).
Proof.
  revert p. induction d as [|d IH|d IH|d IH|d IH|d IH|d IH|d IH|d IH|d IH|d IH];
    intros p; [reflexivity|..];
    cbn [NilEmpty.string_of_uint list_ascii_of_string strconv.digits
         Pos.of_uint_acc];
    match goal with
    | |- context [strconv.digit ?c] =>
        let v := eval vm_compute in (strconv.digit c) in
        change (strconv.digit c) with v
    end;
    cbn iota beta; rewrite <- IH; f_equal; lia.
Qed.

Lemma digits_of_uint (d : Decimal.uint) :
  strconv.digits 0 (list_ascii_of_string (NilEmpty.string_of_uint d)) =
  Some (Z.of_N (Pos.of_uint d)).
Proof.
  induction d as [|d IH|d IH|d IH|d IH|d IH|d IH|d IH|d IH|d IH|d IH];
    [reflexivity|exact IH|..];
    cbn [NilEmpty.string_of_uint list_ascii_of_string strconv.digits
         Pos.of_uint];
    match goal with
    | |- context [strconv.digit ?c] =>
        let v := eval vm_compute in (strconv.digit c) in
        change (strconv.digit c) with v
    end;
    cbn iota beta;
    match goal with
    | |- strconv.digits ?z _ = _ =>
        let v := eval vm_compute in z in change z with v
    end;
    apply digits_of_uint_acc.
Qed.

Lemma Atoi_unsigned (d : Decimal.uint) :
  d <> Decimal.Nil ->
  GoInt.inRange (Z.of_N (Pos.of_uint d)) = true ->
  strconv.Atoi (NilEmpty.string_of_uint d) = Some (Z.of_N (Pos.of_uint d)).
Proof.
  intros Hd Hr. unfold strconv.Atoi.
  pose proof (digits_of_uint d) as Hdig.
  destruct d; [congruence|..];
    cbn [NilEmpty.string_of_uint list_ascii_of_string] in *;
    cbv iota beta; rewrite Hdig; cbv iota beta; rewrite Hr; reflexivity.
Qed.

Lemma Atoi_negated (d : Decimal.uint) :
  d <> Decimal.Nil ->
  GoInt.inRange (- Z.of_N (Pos.of_uint d)) = true ->
  strconv.Atoi (String "-" (NilEmpty.string_of_uint d)) =
    Some (- Z.of_N (Pos.of_uint d)).
Proof.
  intros Hd Hr. unfold strconv.Atoi.
  pose proof (digits_of_uint d) as Hdig.
  cbn [list_ascii_of_string]. cbv iota beta.
  destruct d; [congruence|..];
    cbn [NilEmpty.string_of_uint list_ascii_of_string] in *;
    rewrite Hdig; cbv iota beta; rewrite Hr; reflexivity.
Qed.

(** What [Itoa] prints, [Atoi] reads back: for every [int]. *)
Lemma Atoi_Itoa (z : Z) :
  GoInt.inRange z = true -> strconv.Atoi (strconv.Itoa z) = Some z.
Proof.
  intros Hr. unfold strconv.Itoa. destruct z as [|p|p]; [reflexivity|..];
    cbn [Z.to_int NilZero.string_of_int];
    pose proof (DecimalPos.Unsigned.to_uint_nonnil p) as Hnil;
    pose proof (DecimalPos.Unsigned.of_to p) as Hof.
  - unfold NilZero.string_of_uint.
    destruct (Pos.to_uint p) eqn:E; [congruence|..]; rewrite <- E in *;
      (rewrite Atoi_unsigned; rewrite ?Hof; [reflexivity|exact Hnil|exact Hr]).
  - unfold NilZero.string_of_uint.
    destruct (Pos.to_uint p) eqn:E; [congruence|..]; rewrite <- E in *;
      (rewrite Atoi_negated; rewrite ?Hof; [reflexivity|exact Hnil|exact Hr]).
Qed.

Lemma uint_no_slash (d : Decimal.uint) :
  "/"%char ∉ list_ascii_of_string (NilEmpty.string_of_uint d).
Proof.
  induction d; simpl; [apply not_elem_of_nil|..];
    (apply not_elem_of_cons; split; [discriminate|assumption]).
Qed.

Lemma Itoa_no_slash (z : Z) : "/"%char ∉ list_ascii_of_string (strconv.Itoa z).
Proof.
  unfold strconv.Itoa. destruct z as [|p|p]; cbn [Z.to_int NilZero.string_of_int].
  - simpl. apply not_elem_of_cons. split; [discriminate|apply not_elem_of_nil].
  - unfold NilZero.string_of_uint. destruct (Pos.to_uint p) eqn:E;
      [simpl; apply not_elem_of_cons; split;
         [discriminate|apply not_elem_of_nil]|..];
      rewrite <- E; apply uint_no_slash.
  - simpl list_ascii_of_string. apply not_elem_of_cons. split; [discriminate|].
    unfold NilZero.string_of_uint. destruct (Pos.to_uint p) eqn:E;
      [simpl; apply not_elem_of_cons; split;
         [discriminate|apply not_elem_of_nil]|..];
      rewrite <- E; apply uint_no_slash.
Qed.

Lemma indexOf_app_absent (id : Z) (l : list Todo) (x : Todo) :
  id ∉ ids l -> Id x = id -> indexOf id (l ++ [x]) = Some (length l).
Proof.
  unfold ids. intros Hni Hx. induction l as [|v l IH]; simpl.
  - rewrite Hx, Z.eqb_refl. reflexivity.
  - simpl in Hni. apply not_elem_of_cons in Hni as [H1 H2].
    destruct (Z.eqb_spec (Id v) id) as [E|_]; [congruence|].
    rewrite (IH H2). reflexivity.
Qed.

(** X19: round trip of a create.  In a store whose counter is an [int]
    that no stored item carries, a POST to the collection root creates an
    item, and a GET sent to the same host over the same transport for
    /todos/ followed by the decimal id of that item is answered 200 with
    exactly the item of the 201 answer: same id, title, completed, order
    and url; this GET leaves the store as the POST left it. *)
Theorem post_then_get_round_trip
    (t : MockTodoService) (post get : Request) (o : json.Object) :
  Method post = "POST" -> pathKey (Path post) = "" ->
  Payload post = json.WellFormed o ->
  GoInt.inRange (nextId t) = true -> nextId t ∉ ids (Todos t) ->
  Method get = "GET" ->
  Path get = String.append "/todos/" (strconv.Itoa (nextId t)) ->
  Host get = Host post -> TLS get = TLS post ->
  exists created,
    (todoHandler t post).1 =
      {| http.Status := 201; http.Body := http.JsonTodo created |} /\
    Id created = nextId t /\
    todoHandler (todoHandler t post).2 get =
      ({| http.Status := 200; http.Body := http.JsonTodo created |},
       (todoHandler t post).2).
Proof.
  intros Hm Hk Hp Hr Hni Hg Hpath Hhost Htls.
  rewrite (post_creates t post o Hm Hk Hp). simpl.
  eexists. split; [reflexivity|]. split; [reflexivity|].
  rewrite (handler_GET _ get Hg), Hpath.
  assert ("/"%char ∉ list_ascii_of_string "todos") as Ha.
  { intros H. apply list_elem_of_In in H. simpl in H.
    repeat (destruct H as [H|H]; [discriminate|]). exact H. }
  change (String.append "/todos/" (strconv.Itoa (nextId t)))
    with (String "/" (String.append "todos"
                        (String "/" (strconv.Itoa (nextId t))))).
  rewrite (proj1 (proj2 (pathKey_segments "todos" (strconv.Itoa (nextId t)) ""
                           Ha (Itoa_no_slash (nextId t))))).
  unfold handleGet, Get.
  rewrite (Atoi_Some_nonempty _ _ (Atoi_Itoa _ Hr)), (Atoi_Itoa _ Hr).
  simpl Todos. rewrite (indexOf_app_absent (nextId t)); [|exact Hni|reflexivity].
  rewrite list_lookup_middle by reflexivity.
  unfold addUrl, withUrl, baseUrl, storeAt. simpl.
  rewrite Hhost, Htls.
  rewrite list_insert_id; [reflexivity|].
  apply list_lookup_middle. reflexivity.
Qed.

Lemma post_then_get_round_trip_witness :
  exists created,
    (todoHandler oneItem (postOf (titleOnly "b"))).1 =
      {| http.Status := 201; http.Body := http.JsonTodo created |} /\
    Id created = nextId oneItem /\
    todoHandler (todoHandler oneItem (postOf (titleOnly "b"))).2 (getAt 2) =
      ({| http.Status := 200; http.Body := http.JsonTodo created |},
       (todoHandler oneItem (postOf (titleOnly "b"))).2).
Proof.
  apply (post_then_get_round_trip oneItem (postOf (titleOnly "b")) (getAt 2)
           (titleOnly "b")); try reflexivity.
  intros Hin. apply list_elem_of_singleton in Hin. discriminate.
Defined.

(** ** What a request can do to the store *)

(** The store after a request is the store before it, or differs from it
    in one of five ways. *)
Lemma handler_effects (t : MockTodoService) (r : Request) :
  (todoHandler t r).2 = t \/
  (todoHandler t r).2 =
    {| nextId := nextId t; Todos := addUrl r <$> Todos t |} \/
  (exists i old x,
     Todos t !! i = Some old /\ Id x = Id old /\
     (todoHandler t r).2 =
       {| nextId := nextId t; Todos := <[i := addUrl r x]> (Todos t) |}) \/
  (exists x,
     Id x = nextId t /\
     (todoHandler t r).2 =
       {| nextId := GoInt.incr (nextId t);
          Todos := Todos t ++ [addUrl r x] |}) \/
  (exists id,
     (todoHandler t r).2 =
       {| nextId := nextId t; Todos := removeFirst id (Todos t) |}) \/
  (todoHandler t r).2 = {| nextId := nextId t; Todos := [] |}.
Proof.
  unfold todoHandler. generalize (pathKey (Path r)) as key. intros key.
  destruct (String.eqb (Method r) "GET").
  { unfold handleGet, Get. destruct (String.length key =? 0)%nat; simpl.
    - right. left. reflexivity.
    - destruct (strconv.Atoi key) as [id|]; simpl; [|left; reflexivity].
      destruct (indexOf id (Todos t)) as [i|] eqn:Hi; simpl;
        [|left; reflexivity].
      destruct (Todos t !! i) as [todo|] eqn:Ht; simpl; [|left; reflexivity].
      right. right. left. exists i, todo, todo.
      split; [exact Ht|]. split; reflexivity. }
  destruct (String.eqb (Method r) "POST").
  { unfold handlePost. destruct (0 <? String.length key)%nat; simpl;
      [left; reflexivity|].
    destruct (Payload r) as [msg|o]; simpl; [left; reflexivity|].
    unfold storeAt. simpl.
    right. right. right. left. eexists (withId (nextId t) _).
    split; [reflexivity|].
    rewrite insert_app_r_alt by lia. rewrite Nat.sub_diag. reflexivity. }
  destruct (String.eqb (Method r) "PATCH").
  { unfold handlePatch. destruct (strconv.Atoi key) as [id|]; simpl;
      [|left; reflexivity].
    destruct (Payload r) as [msg|o]; simpl; [left; reflexivity|].
    unfold Save, savedAt. simpl. destruct (Z.eqb_spec id 0) as [E|E]; simpl.
    - unfold storeAt. simpl.
      right. right. right. left. eexists (withId (nextId t) _).
      split; [reflexivity|].
      rewrite insert_app_r_alt by lia. rewrite Nat.sub_diag. reflexivity.
    - destruct (indexOf id (Todos t)) as [i|] eqn:Hi; simpl;
        [|left; reflexivity].
      destruct (indexOf_Some _ _ _ Hi) as (old & Hold & Hid).
      right. right. left. eexists i, old, (withId id _).
      split; [exact Hold|]. split; [simpl; congruence|].
      unfold storeAt. simpl. rewrite list_insert_insert_eq. reflexivity. }
  destruct (String.eqb (Method r) "DELETE").
  { unfold handleDelete. destruct (String.length key =? 0)%nat; simpl.
    - right. right. right. right. right. reflexivity.
    - destruct (strconv.Atoi key) as [id|]; simpl; [|left; reflexivity].
      rewrite Delete_removeFirst. simpl.
      right. right. right. right. left. exists id. reflexivity. }
  left. reflexivity.
Qed.

Lemma ids_addUrl (r : Request) (l : list Todo) : ids (addUrl r <$> l) = ids l.
Proof. unfold ids. rewrite <- list_fmap_compose. reflexivity. Qed.

Lemma ids_insert_same_id (l : list Todo) (i : nat) (old x : Todo) :
  l !! i = Some old -> Id x = Id old -> ids (<[i := x]> l) = ids l.
Proof.
  intros Hold Hid. unfold ids. rewrite list_fmap_insert.
  apply list_insert_id. rewrite list_lookup_fmap, Hold. simpl. congruence.
Qed.

Lemma ids_removeFirst_sublist (id : Z) (l : list Todo) :
  ids (removeFirst id l) `sublist_of` ids l.
Proof.
  unfold ids. induction l as [|v l IH]; simpl; [reflexivity|].
  destruct (Id v =? id)%Z; simpl.
  - apply sublist_cons. reflexivity.
  - apply sublist_skip. exact IH.
Qed.

(** A request keeps the counter and keeps or thins out the ids, or it
    appends the counter to the ids and increments it. *)
Lemma handler_ids (t : MockTodoService) (r : Request) :
  (nextId (todoHandler t r).2 = nextId t /\
   ids (Todos (todoHandler t r).2) `sublist_of` ids (Todos t)) \/
  (nextId (todoHandler t r).2 = GoInt.incr (nextId t) /\
   ids (Todos (todoHandler t r).2) = ids (Todos t) ++ [nextId t]).
Proof.
  destruct (handler_effects t r)
    as [H|[H|[(i & old & x & Hold & Hid & H)|[(x & Hid & H)
        |[(id & H)|H]]]]]; rewrite H; simpl.
  - left. split; reflexivity.
  - left. split; [reflexivity|]. rewrite ids_addUrl. reflexivity.
  - left. split; [reflexivity|].
    rewrite (ids_insert_same_id _ i old); [reflexivity|exact Hold|exact Hid].
  - right. split; [reflexivity|]. unfold ids. rewrite fmap_app. simpl.
    rewrite Hid. reflexivity.
  - left. split; [reflexivity|]. apply ids_removeFirst_sublist.
  - left. split; [reflexivity|]. apply sublist_nil_l.
Qed.

(** * Properties of the middleware *)

(** X20: preflight.  An OPTIONS request is answered by the middleware
    alone, for every path, store and wrapped handler: the handler is not
    called, nothing is written (so status 200 with an empty body goes
    out), the store is untouched, and the header carries the three CORS
    entries and the JSON content type. *)
Theorem preflight_short_circuit
    (next : Handler) (h : Header) (t : MockTodoService) (r : Request) :
  Method r = "OPTIONS" ->
  exists h',
    commonHandlers next h t r = (h', None, t) /\
    sent None = {| http.Status := 200; http.Body := http.Empty |} /\
    hGet h' "Access-Control-Allow-Origin" = Some "*" /\
    hGet h' "Access-Control-Allow-Methods" = Some "GET, POST, PATCH, DELETE" /\
    hGet h' "Access-Control-Allow-Headers" = Some "accept, content-type" /\
    hGet h' "Content-Type" = Some "application/json; charset=UTF-8".
Proof.
  intros Hm. eexists.
  unfold commonHandlers, loggingHandler, contentTypeJsonHandler, optionsOk.
  rewrite Hm. simpl. split; [reflexivity|]. split; [reflexivity|].
  repeat split; header_lookup.
Qed.

Lemma preflight_short_circuit_witness :
  exists h',
    commonHandlers serveTodo ∅ oneItem (optionsOf "/todos/1") =
      (h', None, oneItem) /\
    sent None = {| http.Status := 200; http.Body := http.Empty |} /\
    hGet h' "Access-Control-Allow-Origin" = Some "*" /\
    hGet h' "Access-Control-Allow-Methods" = Some "GET, POST, PATCH, DELETE" /\
    hGet h' "Access-Control-Allow-Headers" = Some "accept, content-type" /\
    hGet h' "Content-Type" = Some "application/json; charset=UTF-8".
Proof.
  exact (preflight_short_circuit serveTodo ∅ oneItem (optionsOf "/todos/1")
           eq_refl).
Defined.

(** X21: every reply of the mounted handler carries the three CORS
    entries, whatever the method, the path, the body, the store and the
    outcome: success, client error or preflight. *)
Theorem cors_headers_always
    (h : Header) (t : MockTodoService) (r : Request) :
  hGet (commonHandlers serveTodo h t r).1.1 "Access-Control-Allow-Origin"
    = Some "*" /\
  hGet (commonHandlers serveTodo h t r).1.1 "Access-Control-Allow-Methods"
    = Some "GET, POST, PATCH, DELETE" /\
  hGet (commonHandlers serveTodo h t r).1.1 "Access-Control-Allow-Headers"
    = Some "accept, content-type".
Proof.
  unfold commonHandlers, loggingHandler, contentTypeJsonHandler, optionsOk.
  destruct (String.eqb (Method r) "OPTIONS"); simpl.
  - repeat split; header_lookup.
  - unfold serveTodo. destruct (todoHandler t r) as [resp t']. simpl.
    destruct (http.Body resp); simpl; repeat split; header_lookup.
Qed.

(** X22: a request that is not OPTIONS goes through the middleware to the
    dispatcher unchanged: the reply and the store are the dispatcher's.
    Its content type is the JSON one that the middleware set, except that
    a reply written by [http.Error] (every 4xx answer) goes out as plain
    text with the nosniff option. *)
Theorem non_preflight_reaches_dispatcher
    (h : Header) (t : MockTodoService) (r : Request) :
  Method r <> "OPTIONS" ->
  (commonHandlers serveTodo h t r).1.2 = Some (todoHandler t r).1 /\
  (commonHandlers serveTodo h t r).2 = (todoHandler t r).2 /\
  hGet (commonHandlers serveTodo h t r).1.1 "Content-Type" =
    Some (match http.Body (todoHandler t r).1 with
          | http.Text _ => "text/plain; charset=utf-8"
          | _ => "application/json; charset=UTF-8"
          end) /\
  (forall msg, http.Body (todoHandler t r).1 = http.Text msg ->
     hGet (commonHandlers serveTodo h t r).1.1 "X-Content-Type-Options" =
       Some "nosniff").
Proof.
  intros Hm. apply String.eqb_neq in Hm.
  unfold commonHandlers, loggingHandler, contentTypeJsonHandler, optionsOk.
  rewrite Hm. unfold serveTodo. destruct (todoHandler t r) as [resp t'].
  simpl. split; [reflexivity|]. split; [reflexivity|].
  destruct (http.Body resp); simpl; split; try header_lookup;
    intros msg; try discriminate; intros _; header_lookup.
Qed.

Lemma non_preflight_reaches_dispatcher_witness :
  (commonHandlers serveTodo ∅ oneItem (getOf "/todos/9")).1.2 =
    Some http.NotFound /\
  (commonHandlers serveTodo ∅ oneItem (getOf "/todos/9")).2 = oneItem /\
  hGet (commonHandlers serveTodo ∅ oneItem (getOf "/todos/9")).1.1
    "Content-Type" = Some "text/plain; charset=utf-8" /\
  hGet (commonHandlers serveTodo ∅ oneItem (getOf "/todos/1")).1.1
    "Content-Type" = Some "application/json; charset=UTF-8".
Proof.
  assert (Method (getOf "/todos/9") <> "OPTIONS") as H9 by discriminate.
  assert (Method (getOf "/todos/1") <> "OPTIONS") as H1 by discriminate.
  destruct (non_preflight_reaches_dispatcher ∅ oneItem (getOf "/todos/9") H9)
    as (Ha & Hb & Hc & _).
  destruct (non_preflight_reaches_dispatcher ∅ oneItem (getOf "/todos/1") H1)
    as (_ & _ & Hd & _).
  split; [exact Ha|]. split; [exact Hb|]. split; [exact Hc|exact Hd].
Defined.

(** * Sequences of requests *)

Lemma handle_store (t : MockTodoService) (r : Request) :
  (handle t r).2 =
    if String.eqb (Method r) "OPTIONS" then t else (todoHandler t r).2.
Proof.
  unfold handle, commonHandlers, loggingHandler, contentTypeJsonHandler,
    optionsOk.
  destruct (String.eqb (Method r) "OPTIONS"); [reflexivity|].
  unfold serveTodo. destruct (todoHandler t r) as [resp t']. reflexivity.
Qed.

Lemma serveFrom_snoc (t : MockTodoService) (rs : list Request) (r : Request) :
  serveFrom t (rs ++ [r]) = (handle (serveFrom t rs) r).2.
Proof. unfold serveFrom. rewrite fold_left_app. reflexivity. Qed.

Lemma wellFormed_request (t : MockTodoService) (r : Request) :
  wellFormed t -> nextId t < GoInt.maxInt ->
  wellFormed (handle t r).2 /\
  nextId t <= nextId (handle t r).2 <= nextId t + 1.
Proof.
  intros (Hn & Hall & Hnd) Hlt. rewrite handle_store.
  destruct (String.eqb (Method r) "OPTIONS");
    [split; [repeat split; assumption || lia|lia]|].
  assert (GoInt.incr (nextId t) = nextId t + 1) as Hincr.
  { apply incr_no_overflow. unfold GoInt.minInt, GoInt.intSize. lia. }
  unfold wellFormed.
  destruct (handler_ids t r) as [[Hc Hs]|[Hc Hs]]; rewrite Hc.
  - split; [|lia]. split; [exact Hn|]. split.
    + rewrite Forall_forall in Hall. apply Forall_forall.
      intros id Hin. apply Hall. eapply elem_of_sublist; eassumption.
    + eapply sublist_NoDup; eassumption.
  - rewrite Hs, Hincr. split; [|lia]. split; [lia|]. split.
    + apply Forall_app. split.
      * eapply Forall_impl; [exact Hall|]. simpl. intros id Hid. lia.
      * apply Forall_singleton. lia.
    + apply NoDup_app. split; [exact Hnd|]. split.
      * intros id Hin. rewrite Forall_forall in Hall.
        apply Hall in Hin. intros Hin'.
        apply list_elem_of_singleton in Hin'. lia.
      * apply NoDup_singleton.
Qed.

(** X23: identity under any traffic.  After every sequence of fewer than
    [maxInt] requests served from the freshly constructed store, whatever
    their methods, paths and bodies, every stored item has a positive id
    below the counter, no two stored items share an id, and the counter
    has grown by at most one per request. *)
Theorem served_ids_unique (rs : list Request) :
  Z.of_nat (length rs) < GoInt.maxInt ->
  (forall todo, todo ∈ Todos (serveAll rs) ->
     1 <= Id todo < nextId (serveAll rs)) /\
  NoDup (ids (Todos (serveAll rs))) /\
  1 <= nextId (serveAll rs) <= 1 + Z.of_nat (length rs).
Proof.
  intros Hb.
  assert (wellFormed (serveAll rs) /\
          nextId (serveAll rs) <= 1 + Z.of_nat (length rs)) as [Hwf Hle].
  { unfold serveAll. revert Hb.
    induction rs as [|r rs IH] using rev_ind; intros Hb.
    - split; [|simpl; lia]. unfold wellFormed. simpl.
      split; [unfold GoInt.maxInt, GoInt.intSize; lia|].
      split; [constructor|constructor].
    - rewrite length_app in Hb. simpl in Hb.
      destruct IH as [Hwf Hle]; [lia|].
      rewrite serveFrom_snoc, length_app. simpl.
      destruct (wellFormed_request _ r Hwf) as [Hwf' Hstep]; [lia|].
      split; [exact Hwf'|lia]. }
  destruct Hwf as (Hn & Hall & Hnd).
  split; [|split; [exact Hnd|lia]].
  intros todo Hin. rewrite Forall_forall in Hall. apply Hall.
  unfold ids. apply list_elem_of_fmap_2. exact Hin.
Qed.

Lemma served_ids_unique_witness :
  Z.of_nat (length sampleTraffic) < GoInt.maxInt /\
  ids (Todos (serveAll sampleTraffic)) = [2; 3] /\
  nextId (serveAll sampleTraffic) = 4 /\
  (forall todo, todo ∈ Todos (serveAll sampleTraffic) ->
     1 <= Id todo < nextId (serveAll sampleTraffic)) /\
  NoDup (ids (Todos (serveAll sampleTraffic))).
Proof.
  split; [reflexivity|]. split; [vm_compute; reflexivity|].
  split; [vm_compute; reflexivity|].
  destruct (served_ids_unique sampleTraffic eq_refl) as (H1 & H2 & _).
  split; [exact H1|exact H2].
Defined.

Lemma urlFrom_addUrl (rs : list Request) (r : Request) (x : Todo) :
  r ∈ rs -> urlFrom rs (addUrl r x).
Proof. intros Hr. exists r. split; [exact Hr|reflexivity]. Qed.

Lemma Forall_removeFirst (P : Todo -> Prop) (id : Z) (l : list Todo) :
  Forall P l -> Forall P (removeFirst id l).
Proof.
  induction 1 as [|v l Hv Hl IH]; simpl; [constructor|].
  destruct (Id v =? id)%Z; [exact Hl|constructor; assumption].
Qed.

(** X24: no url from a client is ever kept.  After every sequence of
    requests served from the freshly constructed store, the url field of
    every stored item is scheme://host/todos/id for the item's own id and
    the scheme and host of one of the requests served: a url member of a
    POST or PATCH body never stays in the store. *)
Theorem stored_urls_are_computed (rs : list Request) :
  forall todo, todo ∈ Todos (serveAll rs) ->
    exists r, r ∈ rs /\
      Url todo = String.append (baseUrl r) (strconv.Itoa (Id todo)).
Proof.
  assert (Forall (urlFrom rs) (Todos (serveAll rs))) as H.
  { unfold serveAll. induction rs as [|r rs IH] using rev_ind; [constructor|].
    rewrite serveFrom_snoc, handle_store.
    assert (Forall (urlFrom (rs ++ [r])) (Todos (serveFrom NewMockTodoService rs)))
      as Hold.
    { eapply Forall_impl; [exact IH|]. intros x (q & Hq & Hx).
      exists q. split; [apply elem_of_app; left; exact Hq|exact Hx]. }
    assert (r ∈ rs ++ [r]) as Hr by (apply elem_of_app; right; left).
    destruct (String.eqb (Method r) "OPTIONS"); [exact Hold|].
    destruct (handler_effects (serveFrom NewMockTodoService rs) r)
      as [H|[H|[(i & old & x & _ & _ & H)|[(x & _ & H)|[(id & H)|H]]]]];
      rewrite H; simpl.
    - exact Hold.
    - apply Forall_fmap, Forall_true. intros x.
      apply urlFrom_addUrl. exact Hr.
    - apply Forall_insert; [exact Hold|apply urlFrom_addUrl; exact Hr].
    - apply Forall_app. split; [exact Hold|].
      apply Forall_singleton, urlFrom_addUrl. exact Hr.
    - apply Forall_removeFirst. exact Hold.
    - constructor. }
  intros todo Hin. rewrite Forall_forall in H. exact (H todo Hin).
Qed.

Lemma stored_urls_are_computed_witness :
  Url <$> Todos (serveAll sampleTraffic) =
    ["http://example.com/todos/2"; "http://example.com/todos/3"] /\
  (forall todo, todo ∈ Todos (serveAll sampleTraffic) ->
     exists r, r ∈ sampleTraffic /\
       Url todo = String.append (baseUrl r) (strconv.Itoa (Id todo))).
Proof.
  split; [vm_compute; reflexivity|].
  exact (stored_urls_are_computed sampleTraffic).
Defined.

(** X25: GET is safe up to the url field.  Whatever its path, a GET
    request keeps the counter, the number and order of the stored items
    and the id, title, completed flag and order of each of them; only
    url fields may be rewritten. *)
Theorem get_changes_only_urls (t : MockTodoService) (r : Request) :
  Method r = "GET" ->
  nextId (todoHandler t r).2 = nextId t /\
  withUrl "" <$> Todos (todoHandler t r).2 = withUrl "" <$> Todos t.
Proof.
  intros Hm. rewrite (handler_GET t r Hm). unfold handleGet, Get.
  destruct (String.length (pathKey (Path r)) =? 0)%nat; simpl.
  - split; [reflexivity|]. unfold addUrlToTodos.
    rewrite <- list_fmap_compose. reflexivity.
  - destruct (strconv.Atoi (pathKey (Path r))) as [id|]; simpl;
      [|split; reflexivity].
    destruct (indexOf id (Todos t)) as [i|] eqn:Hi; simpl;
      [|split; reflexivity].
    destruct (Todos t !! i) as [todo|] eqn:Ht; simpl; [|split; reflexivity].
    split; [reflexivity|]. rewrite list_fmap_insert.
    apply list_insert_id. rewrite list_lookup_fmap, Ht. reflexivity.
Qed.

Lemma get_changes_only_urls_witness :
  nextId (todoHandler twoItems (getOf "/todos")).2 = nextId twoItems /\
  withUrl "" <$> Todos (todoHandler twoItems (getOf "/todos")).2 =
    withUrl "" <$> Todos twoItems.
Proof. exact (get_changes_only_urls twoItems (getOf "/todos") eq_refl). Defined.

(** X26: clearing, then listing.  After a DELETE of the collection root,
    answered 204 with no body, a GET of the collection root is answered
    200 with the empty sequence, whatever the store held; the counter is
    the one from before the DELETE. *)
Theorem delete_all_then_get_all (t : MockTodoService) (del get : Request) :
  Method del = "DELETE" -> pathKey (Path del) = "" ->
  Method get = "GET" -> pathKey (Path get) = "" ->
  (todoHandler t del).1 =
    {| http.Status := 204; http.Body := http.Empty |} /\
  todoHandler (todoHandler t del).2 get =
    ({| http.Status := 200; http.Body := http.JsonTodos [] |},
     {| nextId := nextId t; Todos := [] |}).
Proof.
  intros Hd Hdk Hg Hgk.
  rewrite (handler_DELETE t del Hd), Hdk. simpl.
  split; [reflexivity|]. rewrite (handler_GET_all _ get Hg Hgk). reflexivity.
Qed.

Lemma delete_all_then_get_all_witness :
  (todoHandler twoItems (deleteOf "/todos")).1 =
    {| http.Status := 204; http.Body := http.Empty |} /\
  todoHandler (todoHandler twoItems (deleteOf "/todos")).2 (getOf "/todos") =
    ({| http.Status := 200; http.Body := http.JsonTodos [] |},
     {| nextId := nextId twoItems; Todos := [] |}).
Proof.
  exact (delete_all_then_get_all twoItems (deleteOf "/todos") (getOf "/todos")
           eq_refl eq_refl eq_refl eq_refl).
Defined.

(** X27: a PATCH whose path id reads as 0 (0, +0, -0, 00, ...) does not
    look for an item: Save takes the id 0 as unset, so the request
    creates.  It is answered 200 with a new item under the counter as id,
    built from the body alone, and that item is appended to the store. *)
Theorem patch_zero_creates (t : MockTodoService) (r : Request) (o : json.Object) :
  Method r = "PATCH" -> strconv.Atoi (pathKey (Path r)) = Some 0 ->
  Payload r = json.WellFormed o ->
  todoHandler t r =
    ({| http.Status := 200;
        http.Body :=
          http.JsonTodo
            {| Id := nextId t;
               Title := default "" (json.title o);
               Completed := default false (json.completed o);
               Order := default 0 (json.order o);
               Url := String.append (baseUrl r) (strconv.Itoa (nextId t)) |} |},
     {| nextId := GoInt.incr (nextId t);
        Todos :=
          Todos t ++
          [{| Id := nextId t;
              Title := default "" (json.title o);
              Completed := default false (json.completed o);
              Order := default 0 (json.order o);
              Url := String.append (baseUrl r) (strconv.Itoa (nextId t)) |}] |}).
Proof.
  intros Hm Hk Hp. rewrite (handler_PATCH t r Hm). unfold handlePatch.
  rewrite Hk, Hp. simpl. unfold storeAt. simpl.
  rewrite insert_app_r_alt by lia. rewrite Nat.sub_diag. reflexivity.
Qed.

Lemma patch_zero_creates_witness :
  strconv.Atoi (pathKey (Path (patchOf "/todos/-0" completedOnly))) = Some 0 /\
  todoHandler oneItem (patchOf "/todos/-0" completedOnly) =
    ({| http.Status := 200;
        http.Body :=
          http.JsonTodo
            {| Id := 2; Title := ""; Completed := true; Order := 0;
               Url := "http://example.com/todos/2" |} |},
     {| nextId := 3;
        Todos :=
          [sampleTodo 1 "a";
           {| Id := 2; Title := ""; Completed := true; Order := 0;
              Url := "http://example.com/todos/2" |}] |}).
Proof.
  split; [reflexivity|].
  exact (patch_zero_creates oneItem (patchOf "/todos/-0" completedOnly)
           completedOnly eq_refl eq_refl eq_refl).
Defined.

(** * The store of the earlier revision *)

Lemma earlier_step_NoDup (t : MockTodoService) (op : Op) :
  NoDup (ids (Todos t)) -> NoDup (ids (Todos (Earlier.step t op))).
Proof.
  intros Hnd. destruct op as [todo|id|]; simpl.
  - unfold Earlier.Save.
    destruct (Id todo =? 0)%Z;
      match goal with
      | |- context [indexOf (Id ?x) (Todos t)] =>
          destruct (indexOf (Id x) (Todos t)) as [i|] eqn:Hi; simpl;
            [rewrite (ids_insert_found x _ i Hi); exact Hnd|];
            apply indexOf_None in Hi; unfold ids; rewrite fmap_app;
            apply NoDup_app; split; [exact Hnd|]; split;
              [intros y Hy Hy'; apply list_elem_of_singleton in Hy';
               subst y; exact (Hi Hy)
              |apply NoDup_singleton]
      end.
  - rewrite Delete_removeFirst. simpl.
    eapply sublist_NoDup; [exact Hnd|apply ids_removeFirst_sublist].
  - constructor.
Qed.

(** X28: in the earlier revision the ids of the stored items are distinct
    after every sequence of Save, Delete and DeleteAll operations from the
    fresh store, with no condition on the length of the run: its Save
    looks the id up after assigning it, and overwrites rather than
    appends when the id is taken. *)
Theorem earlier_ids_distinct (ops : list Op) :
  NoDup (ids (Todos (Earlier.run ops))).
Proof.
  unfold Earlier.run. induction ops as [|op ops IH] using rev_ind.
  - constructor.
  - rewrite fold_left_app. simpl. apply earlier_step_NoDup. exact IH.
Qed.

(** X29: in the earlier revision Save never fails.  An item with a
    non-zero id that no stored item carries is appended under that id and
    the counter is not moved; and a create whose counter value is already
    the id of a stored item replaces that item in its position instead of
    appending, so the number of items does not grow. *)
Theorem earlier_save_upserts (t : MockTodoService) (todo : Todo) :
  (Earlier.Save t todo).1.1 = None /\
  (Id todo <> 0 -> Id todo ∉ ids (Todos t) ->
     Earlier.Save t todo =
       (None, todo, {| nextId := nextId t; Todos := Todos t ++ [todo] |})) /\
  (Id todo = 0 -> forall i, indexOf (nextId t) (Todos t) = Some i ->
     Earlier.Save t todo =
       (None, withId (nextId t) todo,
        {| nextId := GoInt.incr (nextId t);
           Todos := <[i := withId (nextId t) todo]> (Todos t) |}) /\
     length (Todos (Earlier.Save t todo).2) = length (Todos t)).
Proof.
  unfold Earlier.Save. split; [|split].
  - destruct (Id todo =? 0)%Z;
      match goal with
      | |- context [indexOf ?x (Todos t)] => destruct (indexOf x (Todos t))
      end; reflexivity.
  - intros Hn Hni. destruct (Z.eqb_spec (Id todo) 0) as [E|_]; [contradiction|].
    apply indexOf_None in Hni. rewrite Hni. reflexivity.
  - intros H0 i Hi. rewrite H0. simpl. rewrite Hi. simpl.
    split; [reflexivity|apply length_insert].
Qed.

Lemma earlier_save_upserts_witness :
  Earlier.Save oneItem (sampleTodo 2 "mine") =
    (None, sampleTodo 2 "mine",
     {| nextId := 2; Todos := [sampleTodo 1 "a"; sampleTodo 2 "mine"] |}) /\
  Earlier.Save (Earlier.Save oneItem (sampleTodo 2 "mine")).2 (sampleTodo 0 "b") =
    (None, sampleTodo 2 "b",
     {| nextId := 3; Todos := [sampleTodo 1 "a"; sampleTodo 2 "b"] |}).
Proof.
  split.
  - apply (proj1 (proj2 (earlier_save_upserts oneItem (sampleTodo 2 "mine"))));
      [discriminate|].
    intros Hin. apply list_elem_of_singleton in Hin. discriminate.
  - apply (proj2 (proj2 (earlier_save_upserts
                           (Earlier.Save oneItem (sampleTodo 2 "mine")).2
                           (sampleTodo 0 "b"))) eq_refl 1%nat eq_refl).
Defined.
